(** * Expense tracker: validation, persistence and client API layer

    A shallow embedding of the expense tracker's request pipeline
    (sanitize, validate, store, respond) and of the browser-side helpers
    that talk to it, together with the properties the specification
    states about them.

    Source files embedded here:
    - [backend/utils/validators.js]            ([Validators])
    - [backend/models/database.js]             ([Database])
    - [backend/controllers/expenseController.js] and the error
      middleware                               ([Controller])
    - [utils.js] (client form validation)      ([ClientUtils])
    - the client API layer                     ([ClientApi])

    The JavaScript built-ins the code calls (string trimming, [parseFloat],
    [isNaN], [Date] parsing, truthiness) are modelled in [JS].  The
    vocabulary of the properties and the sample data are in [Props]; the
    properties follow in [ValidatorProps], [PipelineProps], [StoreProps] and
    [ClientProps]. *)

From Stdlib Require Import ZArith String Ascii List Bool Lia Sorted Permutation.
From Stdlib Require OrderedTypeEx.
From Stdlib Require Import Floats.SpecFloat.
From stdpp Require Import gmap strings list pretty.

#[local] Set Warnings "-register-all".

Local Open Scope string_scope.
Local Open Scope Z_scope.

(* ===================================================================== *)
(** * JavaScript values and built-ins *)
(* ===================================================================== *)

Module JS.

(** ** Numbers

    A JavaScript number is an IEEE 754 binary64 value: [spec_float] at
    precision 53 and maximal exponent 1024.  All NaNs are one value. *)

Abbreviation number := spec_float.

Definition prec : Z := 53.
Definition emax : Z := 1024.

Definition NaN : number := S754_nan.
Definition zero : number := S754_zero false.

(** The number nearest to an integer (round to nearest, ties to even). *)
Definition number_of_Z (z : Z) : number := binary_normalize prec emax z 0 false.

Definition is_nan (x : number) : bool :=
  match x with S754_nan => true | _ => false end.

Definition is_zero (x : number) : bool :=
  match x with S754_zero _ => true | _ => false end.

(** [x < y], [x <= y], [x > y]: false as soon as an operand is NaN. *)
Definition num_lt (x y : number) : bool := SFltb x y.
Definition num_le (x y : number) : bool := SFleb x y.
Definition num_gt (x y : number) : bool := SFltb y x.

(** ** Strings

    A string is a sequence of characters; each character stands for the
    UTF-16 code unit of the same code (0..255). *)

Definition code (c : ascii) : Z := Z.of_nat (nat_of_ascii c).

(** WhiteSpace and LineTerminator code units below 256:
    TAB, LF, VT, FF, CR, SP and NBSP. *)
Definition is_space (c : ascii) : bool :=
  let n := code c in
  ((9 <=? n) && (n <=? 13)) || (n =? 32) || (n =? 160).

Fixpoint trimStart (s : string) : string :=
  match s with
  | String c s' => if is_space c then trimStart s' else s
  | EmptyString => EmptyString
  end.

Fixpoint trimEnd (s : string) : string :=
  match s with
  | EmptyString => EmptyString
  | String c s' =>
      match trimEnd s' with
      | EmptyString => if is_space c then EmptyString else String c EmptyString
      | t => String c t
      end
  end.

(** [String.prototype.trim] *)
Definition trim (s : string) : string := trimEnd (trimStart s).

Definition is_empty (s : string) : bool :=
  match s with EmptyString => true | _ => false end.

Definition is_digit (c : ascii) : bool := (48 <=? code c) && (code c <=? 57).
Definition digit_val (c : ascii) : Z := code c - 48.

(** ** Decimal literals

    [take_digits s acc n] reads the longest run of decimal digits in front
    of [s]: the value read (on top of [acc]), how many digits were read (on
    top of [n]) and the rest of the input. *)
Fixpoint take_digits (s : string) (acc : Z) (n : Z) : Z * Z * string :=
  match s with
  | String c s' =>
      if is_digit c then take_digits s' (acc * 10 + digit_val c) (n + 1)
      else (acc, n, s)
  | EmptyString => (acc, n, s)
  end.

(** The number nearest to [m * 10^e], with the sign [neg]. *)
Definition decimal_to_number (neg : bool) (m e : Z) : number :=
  match m with
  | Zpos p =>
      if 0 <=? e then binary_normalize prec emax (cond_Zopp neg (Zpos p * 10 ^ e)) 0 neg
      else SFdiv prec emax (S754_finite neg p 0)
                           (S754_finite false (Z.to_pos (10 ^ (- e))) 0)
  | _ => S754_zero neg
  end.

(** ExponentPart: [e] or [E], an optional sign, at least one digit.  An
    incomplete exponent is not part of the literal. *)
Definition take_exponent (s : string) : Z * string :=
  match s with
  | String c s' =>
      if (code c =? 101) || (code c =? 69) then
        let '(neg, s'') :=
          match s' with
          | String d t =>
              if code d =? 45 then (true, t)
              else if code d =? 43 then (false, t)
              else (false, s')
          | EmptyString => (false, s')
          end in
        let '(v, n, rest) := take_digits s'' 0 0 in
        if n =? 0 then (0, s) else (cond_Zopp neg v, rest)
      else (0, s)
  | EmptyString => (0, s)
  end.

Fixpoint starts_with (p s : string) : option string :=
  match p, s with
  | EmptyString, _ => Some s
  | String a p', String b s' => if Ascii.eqb a b then starts_with p' s' else None
  | String _ _, EmptyString => None
  end.

(** The longest prefix of [s] that is an unsigned StrDecimalLiteral, as a
    number of sign [neg], and the input that follows it. *)
Definition take_unsigned_decimal (neg : bool) (s : string) : option (number * string) :=
  match starts_with "Infinity" s with
  | Some rest => Some (S754_infinity neg, rest)
  | None =>
      let '(ip, ni, s1) := take_digits s 0 0 in
      let '(m, nf, s2) :=
        match s1 with
        | String c t =>
            if code c =? 46 then
              let '(m, nf, t') := take_digits t ip 0 in
              if (ni =? 0) && (nf =? 0) then (ip, 0, s1) else (m, nf, t')
            else (ip, 0, s1)
        | EmptyString => (ip, 0, s1)
        end in
      if (ni =? 0) && (nf =? 0) then None
      else
        let '(ex, s3) := take_exponent s2 in
        Some (decimal_to_number neg m (ex - nf), s3)
  end.

(** The same with an optional leading sign. *)
Definition take_decimal (s : string) : option (number * string) :=
  match s with
  | String c t =>
      if code c =? 45 then take_unsigned_decimal true t
      else if code c =? 43 then take_unsigned_decimal false t
      else take_unsigned_decimal false s
  | EmptyString => None
  end.

(** [parseFloat] on a string: leading white space is skipped, the longest
    decimal literal in front is converted, whatever follows is ignored. *)
Definition parseFloat_string (s : string) : number :=
  match take_decimal (trimStart s) with
  | Some (x, _) => x
  | None => NaN
  end.

(** StringToNumber also accepts [0x], [0o] and [0b] integer literals. *)
Definition radix_digit (base : Z) (c : ascii) : option Z :=
  let n := code c in
  let v := if (48 <=? n) && (n <=? 57) then n - 48
           else if (97 <=? n) && (n <=? 102) then n - 87
           else if (65 <=? n) && (n <=? 70) then n - 55
           else base in
  if v <? base then Some v else None.

Fixpoint radix_digits (base : Z) (s : string) (acc : Z) : option Z :=
  match s with
  | EmptyString => Some acc
  | String c s' =>
      match radix_digit base c with
      | Some v => radix_digits base s' (acc * base + v)
      | None => None
      end
  end.

Definition radix_literal (s : string) : option number :=
  match s with
  | String z (String b (String d rest)) =>
      if code z =? 48 then
        let n := code b in
        let base := if (n =? 120) || (n =? 88) then 16
                    else if (n =? 111) || (n =? 79) then 8
                    else if (n =? 98) || (n =? 66) then 2
                    else 0 in
        if base =? 0 then None
        else option_map number_of_Z (radix_digits base (String d rest) 0)
      else None
  | _ => None
  end.

(** [Number(s)] for a string: the whole trimmed string must be a numeric
    literal; the empty string is 0. *)
Definition StringToNumber (s : string) : number :=
  let t := trim s in
  if is_empty t then zero
  else match radix_literal t with
       | Some x => x
       | None =>
           match take_decimal t with
           | Some (x, EmptyString) => x
           | _ => NaN
           end
       end.

(** ** Values

    The values a JSON request body, a query string or a table row can put
    in a field: the primitives, and [VObject] for a plain object (whose
    string form is ["[object Object]"]).  Arrays are not modelled. *)

Inductive value :=
  | VUndefined
  | VNull
  | VBool (b : bool)
  | VNum (x : number)
  | VStr (s : string)
  | VObject.

(** ToBoolean *)
Definition truthy (v : value) : bool :=
  match v with
  | VUndefined | VNull => false
  | VBool b => b
  | VNum x => negb (is_zero x || is_nan x)
  | VStr s => negb (is_empty s)
  | VObject => true
  end.

(** [a || b] on values *)
Definition or_else (a b : value) : value := if truthy a then a else b.

(** ToNumber *)
Definition ToNumber (v : value) : number :=
  match v with
  | VUndefined => NaN
  | VNull => zero
  | VBool b => if b then number_of_Z 1 else zero
  | VNum x => x
  | VStr s => StringToNumber s
  | VObject => NaN
  end.

(** The global [isNaN] *)
Definition isNaN (v : value) : bool := is_nan (ToNumber v).

(** [parseFloat] first turns its argument into a string.  The string of a
    number reads back as the same number (the string of -0 is ["0"]), so a
    number is returned as it is, -0 turned into 0. *)
Definition parseFloat (v : value) : number :=
  match v with
  | VNum x => if is_zero x then zero else x
  | VStr s => parseFloat_string s
  | VUndefined => parseFloat_string "undefined"
  | VNull => parseFloat_string "null"
  | VBool b => parseFloat_string (if b then "true" else "false")
  | VObject => parseFloat_string "[object Object]"
  end.

(** ** Dates

    A [Date] holds a time value: milliseconds since 1970-01-01T00:00Z, or
    nothing for an invalid date. *)

Definition ms_per_day : Z := 86400000.

(** Day number of the civil date [y]-[m]-[d] (days since 1970-01-01);
    a day beyond the end of the month runs into the next one. *)
Definition days_from_civil (y m d : Z) : Z :=
  let y' := if m <=? 2 then y - 1 else y in
  let era := y' / 400 in
  let yoe := y' - era * 400 in
  let doy := (153 * (if 2 <? m then m - 3 else m + 9) + 2) / 5 + d - 1 in
  let doe := yoe * 365 + yoe / 4 - yoe / 100 + doy in
  era * 146097 + doe - 719468.

Definition two_digits (a b : ascii) : option Z :=
  if is_digit a && is_digit b then Some (digit_val a * 10 + digit_val b) else None.

(** The fields of a string of the form [dddd-dd-dd], the pattern
    [/^\d{4}-\d{2}-\d{2}$/] of the validator. *)
Definition date_fields (s : string) : option (Z * Z * Z) :=
  match s with
  | String y1 (String y2 (String y3 (String y4 (String h1
      (String m1 (String m2 (String h2 (String d1 (String d2 EmptyString))))))))) =>
      if (code h1 =? 45) && (code h2 =? 45) then
        match two_digits y1 y2, two_digits y3 y4, two_digits m1 m2, two_digits d1 d2 with
        | Some yh, Some yl, Some m, Some d => Some (yh * 100 + yl, m, d)
        | _, _, _, _ => None
        end
      else None
  | _ => None
  end.

Definition matches_date_pattern (s : string) : bool :=
  match date_fields s with Some _ => true | None => false end.

(** [new Date(s)] for a date-only string, as Node's engine reads it: UTC
    midnight of that day; the month must be 1..12 and the day 1..31.
    Strings of any other form are taken as invalid dates: the server never
    parses one (the pattern is tested first) and a date input never
    produces one. *)
Definition new_Date (s : string) : option Z :=
  match date_fields s with
  | Some (y, m, d) =>
      if (1 <=? m) && (m <=? 12) && (1 <=? d) && (d <=? 31)
      then Some (days_from_civil y m d * ms_per_day)
      else None
  | None => None
  end.

(** [a > b] on dates compares time values; an invalid date compares false. *)
Definition date_gt (a b : option Z) : bool :=
  match a, b with
  | Some x, Some y => y <? x
  | _, _ => false
  end.

(** [today.setHours(0, 0, 0, 0)]: local midnight of the day of [now], for a
    clock [tz] minutes ahead of UTC. *)
Definition local_midnight (tz now : Z) : Z :=
  (now + tz * 60000) / ms_per_day * ms_per_day - tz * 60000.

End JS.

(* ===================================================================== *)
(** * Errors and results *)
(* ===================================================================== *)

(** One entry of a validation report. *)
Record verror := { field : string; message : string }.

(** A thrown [Error] object, with the properties the handlers attach. *)
Module Err.
Record error := {
  message : string;
  statusCode : option Z;
  code : option string;
  details : option (list verror)
}.
End Err.

Definition new_Error (msg : string) : Err.error :=
  {| Err.message := msg; Err.statusCode := None; Err.code := None; Err.details := None |}.

(** A computation that returns or throws; a promise that resolves or
    rejects. *)
Inductive result (A : Type) :=
  | Ok (a : A)
  | Throw (e : Err.error).
Arguments Ok {A} a.
Arguments Throw {A} e.

#[export] Instance result_ret : MRet result := fun A a => Ok a.
#[export] Instance result_bind : MBind result := fun A B f m =>
  match m with
  | Ok a => f a
  | Throw e => Throw e
  end.

(** A JavaScript object used as a record of fields; a missing key reads as
    [undefined]. *)
Definition get (o : gmap string JS.value) (k : string) : JS.value :=
  default JS.VUndefined (o !! k).

(* ===================================================================== *)
(** * backend/utils/validators.js *)
(* ===================================================================== *)

Module Validators.
Import JS.

Definition VALID_CATEGORIES : list string :=
  ["Food"; "Transport"; "Entertainment"; "Utilities"; "Healthcare"; "Shopping"; "Other"].

(** [Array.prototype.join] *)
Fixpoint join (sep : string) (l : list string) : string :=
  match l with
  | [] => EmptyString
  | [x] => x
  | x :: rest => x +:+ sep +:+ join sep rest
  end.

(** [VALID_CATEGORIES.includes(v)]: only a string can be found. *)
Definition includes (l : list string) (v : value) : bool :=
  match v with
  | VStr s => bool_decide (s ∈ l)
  | _ => false
  end.

(** The record handed to the validator. *)
Record expense := {
  date : value;
  amount : value;
  category : value;
  description : value
}.

Record validation := { isValid : bool; errors : list verror }.

(** [isValidDate]: the pattern is tested on the string form of the argument.
    The string form of [undefined], [null], a boolean, a number or a plain
    object never has the shape [dddd-dd-dd], so only a string can pass. *)
Definition isValidDate (dateStr : value) : bool :=
  match dateStr with
  | VStr s =>
      if negb (matches_date_pattern s) then false
      else match new_Date s with Some _ => true | None => false end
  | _ => false
  end.

(** [new Date(expense.date)], reached only once [isValidDate] has accepted
    the value, hence with a string. *)
Definition Date_of (v : value) : option Z :=
  match v with
  | VStr s => new_Date s
  | _ => None
  end.

Definition push (errors : list verror) (f m : string) : list verror :=
  errors ++ [ {| field := f; message := m |} ].

Definition is_string (v : value) : bool :=
  match v with VStr _ => true | _ => false end.

(** [v.length], read only on strings here. *)
Definition length_of (v : value) : Z :=
  match v with VStr s => Z.of_nat (String.length s) | _ => 0 end.

Definition is_undefined (v : value) : bool :=
  match v with VUndefined => true | _ => false end.
Definition is_null (v : value) : bool :=
  match v with VNull => true | _ => false end.
Definition is_empty_string (v : value) : bool :=
  match v with VStr s => is_empty s | _ => false end.

(** [validateExpense]; [now] is the time value of [new Date()]. *)
Definition validateExpense (now : Z) (expense : expense) : validation :=
  let errors := [] in
  (* Date validation *)
  let errors :=
    if negb (truthy (date expense)) then
      push errors "date" "Date is required"
    else if negb (isValidDate (date expense)) then
      push errors "date" "Invalid date format (use YYYY-MM-DD)"
    else if date_gt (Date_of (date expense)) (Some now) then
      push errors "date" "Date cannot be in the future"
    else errors in
  (* Amount validation *)
  let errors :=
    if is_undefined (amount expense) || is_null (amount expense)
       || is_empty_string (amount expense) then
      push errors "amount" "Amount is required"
    else if isNaN (amount expense) then
      push errors "amount" "Amount must be a number"
    else if num_le (parseFloat (amount expense)) zero then
      push errors "amount" "Amount must be greater than 0"
    else if num_gt (parseFloat (amount expense)) (number_of_Z 999999) then
      push errors "amount" "Amount too large"
    else errors in
  (* Category validation *)
  let errors :=
    if negb (truthy (category expense)) then
      push errors "category" "Category is required"
    else if negb (includes VALID_CATEGORIES (category expense)) then
      push errors "category"
           ("Category must be one of: " +:+ join ", " VALID_CATEGORIES)
    else errors in
  (* Description validation (optional, but if provided, check length) *)
  let errors :=
    if truthy (description expense) && negb (is_string (description expense)) then
      push errors "description" "Description must be text"
    else if truthy (description expense) && (255 <? length_of (description expense)) then
      push errors "description" "Description too long (max 255 chars)"
    else errors in
  {| isValid := Nat.eqb (length errors) 0; errors := errors |}.

(** [v?.trim()]: [undefined] for [undefined] and [null], the trimmed string
    for a string; any other value has no [trim] method and the call throws a
    TypeError. *)
Definition optional_trim (what : string) (v : value) : result value :=
  match v with
  | VUndefined | VNull => Ok VUndefined
  | VStr s => Ok (VStr (trim s))
  | _ => Throw (new_Error (what +:+ "?.trim is not a function"))
  end.

(** [sanitizeExpense]; the fields are evaluated in the order written. *)
Definition sanitizeExpense (expense : gmap string value) : result Validators.expense :=
  d ← optional_trim "expense.date" (get expense "date");
  let a := VNum (parseFloat (get expense "amount")) in
  c ← optional_trim "expense.category" (get expense "category");
  t ← optional_trim "expense.description" (get expense "description");
  Ok {| date := d; amount := a; category := c; description := or_else t VNull |}.

End Validators.

(* ===================================================================== *)
(** * backend/models/database.js *)
(* ===================================================================== *)

Module Database.
Import JS.

(** ** The [expenses] table

    What a column holds: NULL, a REAL or a TEXT.  The handlers only bind
    validated values (TEXT for [date], [category] and [description], REAL
    for [amount]); SQLite's conversion of a value of another class to the
    affinity of its column is not modelled. *)
Inductive sqlval :=
  | SNull
  | SReal (x : number)
  | SText (s : string).

Record row := {
  id : Z;
  date : sqlval;
  amount : sqlval;
  category : sqlval;
  description : sqlval;
  created_at : string
}.

(** The table in insertion order, and the largest id ever handed out
    (the [sqlite_sequence] entry of the AUTOINCREMENT key). *)
Record db := { rows : list row; seq : Z }.

#[export] Instance number_eq_dec : EqDecision number.
Proof. solve_decision. Defined.
#[export] Instance sqlval_eq_dec : EqDecision sqlval.
Proof. solve_decision. Defined.

(** How the driver binds a JavaScript value to a [?]; NaN is bound as
    NULL. *)
Definition bind_param (v : value) : sqlval :=
  match v with
  | VUndefined | VNull => SNull
  | VBool b => SReal (if b then number_of_Z 1 else zero)
  | VNum x => if is_nan x then SNull else SReal x
  | VStr s => SText s
  | VObject => SText "[object Object]"
  end.

(** How a stored value reads back in a result row. *)
Definition column_value (v : sqlval) : value :=
  match v with
  | SNull => VNull
  | SReal x => VNum x
  | SText s => VStr s
  end.

(** A result row as the JavaScript object the driver builds. *)
Definition row_object (r : row) : gmap string value :=
  <["id" := VNum (number_of_Z (id r))]>
  (<["date" := column_value (date r)]>
  (<["amount" := column_value (amount r)]>
  (<["category" := column_value (category r)]>
  (<["description" := column_value (description r)]>
  (<["created_at" := VStr (created_at r)]> ∅))))).

(** ** Statements

    Each function below is one SQL statement of the source, run against
    the table.  A statement reports a constraint violation as an error; the
    table is otherwise taken to be always reachable (no I/O fault). *)
Inductive sql_result (A : Type) :=
  | SqlOk (a : A)
  | SqlErr (message : string).
Arguments SqlOk {A} a.
Arguments SqlErr {A} message.

Definition is_sql_null (v : sqlval) : bool :=
  match v with SNull => true | _ => false end.

(** The NOT NULL columns. *)
Definition not_null_violation (r : row) : option string :=
  if is_sql_null (date r) then Some "expenses.date"
  else if is_sql_null (amount r) then Some "expenses.amount"
  else if is_sql_null (category r) then Some "expenses.category"
  else None.

Definition constraint_failed (col : string) : string :=
  "SQLITE_CONSTRAINT: NOT NULL constraint failed: " +:+ col.

(** The next AUTOINCREMENT key: one more than the largest ever used. *)
Definition next_id (d : db) : Z :=
  1 + fold_right Z.max (seq d) (map id (rows d)).

(** [INSERT INTO expenses (date, amount, category, description)
     VALUES (?, ?, ?, ?)]; [ts] is CURRENT_TIMESTAMP.  Gives the new table
    and [lastID]. *)
Definition sql_insert (ts : string) (p_date p_amount p_category p_description : sqlval)
    (d : db) : sql_result (db * Z) :=
  let r := {| id := next_id d; date := p_date; amount := p_amount;
              category := p_category; description := p_description;
              created_at := ts |} in
  match not_null_violation r with
  | Some col => SqlErr (constraint_failed col)
  | None => SqlOk ({| rows := rows d ++ [r]; seq := id r |}, id r)
  end.

(** [SELECT * FROM expenses WHERE id = ?] through [db.get]: the first row,
    or [undefined].  The id of a request is identified with the integer
    it denotes for the INTEGER key. *)
Definition sql_select_by_id (i : Z) (d : db) : sql_result (option row) :=
  SqlOk (find (fun r => id r =? i) (rows d)).

(** One assignment of a SET clause. *)
Definition assign (r : row) (a : string * sqlval) : row :=
  let '(col, v) := a in
  if String.eqb col "date" then
    {| id := id r; date := v; amount := amount r; category := category r;
       description := description r; created_at := created_at r |}
  else if String.eqb col "amount" then
    {| id := id r; date := date r; amount := v; category := category r;
       description := description r; created_at := created_at r |}
  else if String.eqb col "category" then
    {| id := id r; date := date r; amount := amount r; category := v;
       description := description r; created_at := created_at r |}
  else if String.eqb col "description" then
    {| id := id r; date := date r; amount := amount r; category := category r;
       description := v; created_at := created_at r |}
  else r.

(** [UPDATE expenses SET ... WHERE id = ?] *)
Definition sql_update (sets : list (string * sqlval)) (i : Z) (d : db) : sql_result db :=
  let rows' := map (fun r => if id r =? i then fold_left assign sets r else r) (rows d) in
  match find (fun r => (id r =? i) && bool_decide (is_Some (not_null_violation r))) rows' with
  | Some r => SqlErr (constraint_failed (default EmptyString (not_null_violation r)))
  | None => SqlOk {| rows := rows'; seq := seq d |}
  end.

(** [DELETE FROM expenses WHERE id = ?]; gives the new table and
    [this.changes], the number of rows removed. *)
Definition sql_delete (i : Z) (d : db) : sql_result (db * Z) :=
  let removed := filter (fun r => id r = i) (rows d) in
  let kept := filter (fun r => id r ≠ i) (rows d) in
  SqlOk ({| rows := kept; seq := seq d |}, Z.of_nat (length removed)).

(** ORDER BY date DESC.  Stored values are ordered NULL, then numbers, then
    texts byte by byte; rows with equal dates stay in table order. *)
Definition sqlval_lt (a b : sqlval) : bool :=
  match a, b with
  | SNull, SNull => false
  | SNull, _ => true
  | SReal _, SNull => false
  | SReal x, SReal y => num_lt x y
  | SReal _, SText _ => true
  | SText _, (SNull | SReal _) => false
  | SText s, SText t => match String.compare s t with Lt => true | _ => false end
  end.

Fixpoint insert_desc (r : row) (l : list row) : list row :=
  match l with
  | [] => [r]
  | y :: l' => if sqlval_lt (date y) (date r) then r :: l else y :: insert_desc r l'
  end.

Definition order_by_date_desc (l : list row) : list row :=
  fold_left (fun acc r => insert_desc r acc) l [].

(** The conditions a WHERE clause is made of, each with its bound
    parameters. *)
Inductive condition :=
  | CategoryEq (p : value)
  | AmountBetween (lo hi : value).

(** The row returned by the summary query. *)
Record summary_row := {
  totalCount : Z;
  totalAmount : sqlval;
  s_category : sqlval;
  categoryTotal : sqlval
}.

Section Sqlite.

(** SQLite's comparison of a stored value with a bound parameter under the
    affinity of the column ([None] when either side is NULL). *)
Variable sql_compare : sqlval -> value -> option comparison.

(** The SUM aggregate on a non-empty group of stored values, and ROUND to
    two decimals: SQLite's floating-point built-ins. *)
Variable sum_real : list sqlval -> number.
Variable round2 : number -> number.

Definition holds (c : condition) (r : row) : bool :=
  match c with
  | CategoryEq p =>
      match sql_compare (category r) p with Some Eq => true | _ => false end
  | AmountBetween lo hi =>
      match sql_compare (amount r) lo, sql_compare (amount r) hi with
      | Some (Gt | Eq), Some (Lt | Eq) => true
      | _, _ => false
      end
  end.

(** [SELECT * FROM expenses [WHERE c1 AND c2 ...] ORDER BY date DESC] *)
Definition sql_select_all (whereClause : list condition) (d : db) : sql_result (list row) :=
  SqlOk (order_by_date_desc
           (filter (fun r => forallb (fun c => holds c r) whereClause = true) (rows d))).

Definition SUM (l : list sqlval) : sqlval :=
  match l with
  | [] => SNull
  | _ => SReal (sum_real l)
  end.

Definition ROUND2 (v : sqlval) : sqlval :=
  match v with
  | SReal x => SReal (round2 x)
  | _ => SNull
  end.

(** One output row of [... FROM expenses GROUP BY category]. *)
Definition group_row (l : list row) (c : sqlval) : summary_row :=
  let g := filter (fun r => category r = c) l in
  {| totalCount := Z.of_nat (length g);
     totalAmount := SUM (map amount g);
     s_category := c;
     categoryTotal := ROUND2 (SUM (map amount g)) |}.

(** The output row of the aggregate query without GROUP BY. *)
Definition total_row (l : list row) : summary_row :=
  {| totalCount := Z.of_nat (length l);
     totalAmount := SUM (map amount l);
     s_category := SText "TOTAL";
     categoryTotal := ROUND2 (SUM (map amount l)) |}.

(** The summary statement: the grouped rows (one per distinct category, in
    an order SQL leaves open), UNION ALL the row over the whole table. *)
Definition sql_summary (d : db) : sql_result (list summary_row) :=
  SqlOk (map (group_row (rows d)) (remove_dups (map category (rows d)))
         ++ [total_row (rows d)])%list.

End Sqlite.

(** ** The exported operations

    Each returns a promise; running it against the table gives the table
    afterwards and how the promise settles. *)
Definition M (A : Type) : Type := db -> db * result A.

Definition ret {A} (a : A) : M A := fun d => (d, Ok a).
Definition throw {A} (e : Err.error) : M A := fun d => (d, Throw e).
Definition bind {A B} (m : M A) (k : A -> M B) : M B :=
  fun d => match m d with
           | (d', Ok a) => k a d'
           | (d', Throw e) => (d', Throw e)
           end.
Definition lift {A} (r : result A) : M A := fun d => (d, r).

Notation "'await' x ':=' m 'in' k" := (bind m (fun x => k))
  (at level 10, x name, m at level 100, k at level 200, only parsing).

Definition not_found_message (i : Z) : string :=
  "Expense with ID " +:+ pretty i +:+ " not found".

(** The WHERE clause [getAllExpenses] builds from its options. *)
Definition whereClause (options : gmap string value) : list condition :=
  let whereClause := [] in
  let whereClause :=
    if truthy (get options "category")
    then (whereClause ++ [CategoryEq (get options "category")])%list
    else whereClause in
  let whereClause :=
    if truthy (get options "minAmount") && truthy (get options "maxAmount")
    then (whereClause
          ++ [AmountBetween (get options "minAmount") (get options "maxAmount")])%list
    else whereClause in
  whereClause.

Definition getAllExpenses (sql_compare : sqlval -> value -> option comparison)
    (options : gmap string value) : M (list row) :=
  fun d =>
    match sql_select_all sql_compare (whereClause options) d with
    | SqlErr m => (d, Throw (new_Error ("Failed to fetch expenses: " +:+ m)))
    | SqlOk rows => (d, Ok rows)
    end.

(** Resolves with the row, or with [undefined] ([None]). *)
Definition getExpenseById (i : Z) : M (option row) :=
  fun d =>
    match sql_select_by_id i d with
    | SqlErr m => (d, Throw (new_Error ("Failed to fetch expense: " +:+ m)))
    | SqlOk r => (d, Ok r)
    end.

Definition addExpense (ts : string) (expense : Validators.expense) : M (option row) :=
  fun d =>
    match sql_insert ts
            (bind_param (Validators.date expense))
            (bind_param (Validators.amount expense))
            (bind_param (Validators.category expense))
            (bind_param (or_else (Validators.description expense) VNull)) d with
    | SqlErr m => (d, Throw (new_Error ("Failed to add expense: " +:+ m)))
    | SqlOk (d', lastID) => getExpenseById lastID d'
    end.

Definition allowedFields : list string := ["date"; "amount"; "category"; "description"].

(** The SET clause: the allowed fields that are keys of [updates]. *)
Definition updateFields (updates : gmap string value) : list (string * sqlval) :=
  omap (fun f => (fun v => (f, bind_param v)) <$> updates !! f) allowedFields.

Definition updateExpense (i : Z) (updates : gmap string value) : M (option row) :=
  fun d =>
    if Nat.eqb (length (updateFields updates)) 0 then
      (d, Throw (new_Error "No valid fields to update"))
    else
      match sql_update (updateFields updates) i d with
      | SqlErr m => (d, Throw (new_Error ("Failed to update expense: " +:+ m)))
      | SqlOk d' => getExpenseById i d'
      end.

Definition deleteExpense (i : Z) : M bool :=
  fun d =>
    match sql_delete i d with
    | SqlErr m => (d, Throw (new_Error ("Failed to delete expense: " +:+ m)))
    | SqlOk (d', changes) =>
        if changes =? 0 then (d', Throw (new_Error (not_found_message i)))
        else (d', Ok true)
    end.

Definition getExpenseSummary (sum_real : list sqlval -> number)
    (round2 : number -> number) : M (list summary_row) :=
  fun d =>
    match sql_summary sum_real round2 d with
    | SqlErr m => (d, Throw (new_Error ("Failed to get summary: " +:+ m)))
    | SqlOk rows => (d, Ok rows)
    end.

End Database.

(* ===================================================================== *)
(** * backend/controllers/expenseController.js and the error middleware *)
(* ===================================================================== *)

Module Controller.
Import JS Database.

(** The JSON envelope of a response. *)
Inductive payload :=
  | ExpenseList (data : list row) (count : Z)
  | ExpenseData (data : option row) (message : string)
  | Deleted (message : string) (deletedId : Z)
  | CategoryList (data : list string)
  | SummaryData (data : list summary_row)
  (** [{ success: false, error: { code, message, details? } }]; [details] is
      absent, the empty object, or [{ errors }]. *)
  | Failure (code message : string) (details : option (option (list verror))).

Record response := { status : Z; body : payload }.

(** [res.json(...)]: status 200 unless [res.status] was called. *)
Definition json (p : payload) : response := {| status := 200; body := p |}.

Definition validation_error (errors : list verror) : Err.error :=
  {| Err.message := "Validation failed";
     Err.statusCode := Some 400;
     Err.code := Some "VALIDATION_ERROR";
     Err.details := Some errors |}.

Definition not_found (i : Z) : Err.error :=
  {| Err.message := not_found_message i;
     Err.statusCode := Some 404;
     Err.code := Some "NOT_FOUND";
     Err.details := None |}.

(** The sanitized record as the object [updateExpense] receives: all four
    keys are present. *)
Definition expense_object (e : Validators.expense) : gmap string value :=
  <["date" := Validators.date e]>
  (<["amount" := Validators.amount e]>
  (<["category" := Validators.category e]>
  (<["description" := Validators.description e]> ∅))).

(** A handler either sends a response or throws, which hands the error to
    [next]. *)

Definition fetchAllExpenses (sql_compare : sqlval -> value -> option comparison)
    (query : gmap string value) : M response :=
  await expenses := getAllExpenses sql_compare query in
  ret (json (ExpenseList expenses (Z.of_nat (length expenses)))).

Definition createExpense (now : Z) (ts : string) (body : gmap string value) : M response :=
  (* Sanitize input *)
  await sanitized := lift (Validators.sanitizeExpense body) in
  (* Validate input *)
  let v := Validators.validateExpense now sanitized in
  await u := (if negb (Validators.isValid v)
        then throw (validation_error (Validators.errors v))
        else ret tt) in
  (* Save to database *)
  await expense := addExpense ts sanitized in
  (* Return created expense with 201 status *)
  ret {| status := 201; body := ExpenseData expense "Expense created successfully" |}.

Definition updateExpenseData (now : Z) (i : Z) (body : gmap string value) : M response :=
  (* Check if expense exists *)
  await existing := getExpenseById i in
  match existing with
  | None => throw (not_found i)
  | Some existing =>
      (* Merge existing with updates *)
      await updates := lift (Validators.sanitizeExpense (body ∪ row_object existing)) in
      (* Validate merged data *)
      let v := Validators.validateExpense now updates in
      await u := (if negb (Validators.isValid v)
            then throw (validation_error (Validators.errors v))
            else ret tt) in
      (* Update in database *)
      await updated := updateExpense i (expense_object updates) in
      ret (json (ExpenseData updated "Expense updated successfully"))
  end.

Definition removeExpense (i : Z) : M response :=
  (* Check if expense exists first *)
  await existing := getExpenseById i in
  match existing with
  | None => throw (not_found i)
  | Some _ =>
      (* Delete from database *)
      await u := deleteExpense i in
      ret (json (Deleted "Expense deleted successfully" i))
  end.

Definition getCategories : response :=
  json (CategoryList Validators.VALID_CATEGORIES).

Definition getSummary (sum_real : list sqlval -> number) (round2 : number -> number)
    : M response :=
  await summary := getExpenseSummary sum_real round2 in
  ret (json (SummaryData summary)).

(** [errorHandler]; [development] tells whether NODE_ENV is
    ['development'].  [x || y] takes [y] for a missing, zero or empty [x]. *)
Definition errorHandler (development : bool) (err : Err.error) : response :=
  let statusCode :=
    match Err.statusCode err with
    | Some z => if z =? 0 then 500 else z
    | None => 500
    end in
  let errorCode :=
    match Err.code err with
    | Some c => if is_empty c then "INTERNAL_SERVER_ERROR" else c
    | None => "INTERNAL_SERVER_ERROR"
    end in
  let message :=
    if is_empty (Err.message err) then "An unexpected error occurred"
    else Err.message err in
  let details := Err.details err in
  {| status := statusCode;
     body := Failure errorCode message (if development then Some details else None) |}.

(** A route: the handler runs, and what it throws goes through
    [errorHandler]. *)
Definition serve (development : bool) (handler : M response) (d : db) : db * response :=
  match handler d with
  | (d', Ok r) => (d', r)
  | (d', Throw e) => (d', errorHandler development e)
  end.

End Controller.

(* ===================================================================== *)
(** * utils.js: client-side form validation *)
(* ===================================================================== *)

Module ClientUtils.
Import JS.

(** What [getFormData] reads from the form: the text of each input. *)
Record formData := {
  date : string;
  amount : string;
  category : string;
  description : string
}.

(** [validateExpenseForm]: the first error message, or [null] ([None]).
    [now] is the time value of [new Date()], [tz] the minutes the browser's
    clock is ahead of UTC. *)
Definition validateExpenseForm (tz now : Z) (formData : formData) : option string :=
  (* Date validation *)
  if is_empty (date formData) then Some "Date is required"
  else
    let expenseDate := new_Date (date formData) in
    let today := local_midnight tz now in
    if date_gt expenseDate (Some today) then Some "Date cannot be in the future"
    (* Amount validation *)
    else if is_empty (amount formData) || is_empty (amount formData) then
      Some "Amount is required"
    else
      let amount := parseFloat_string (amount formData) in
      if is_nan amount then Some "Amount must be a valid number"
      else if num_le amount zero then Some "Amount must be greater than $0.00"
      else if num_gt amount (number_of_Z 999999) then Some "Amount is too large"
      (* Category validation *)
      else if is_empty (category formData) then Some "Category is required"
      (* If all checks pass *)
      else None.

(** [validateField]: the check run when one input loses focus or changes. *)
Definition validateField (now : Z) (field value : string) : option string :=
  if String.eqb field "date" then
    if is_empty value then Some "Date is required"
    else if date_gt (new_Date value) (Some now) then Some "Date cannot be in the future"
    else None
  else if String.eqb field "amount" then
    if is_empty value || is_empty value then Some "Amount is required"
    else if is_nan (parseFloat_string value) then Some "Amount must be a number"
    else if num_le (parseFloat_string value) zero then Some "Amount must be positive"
    else None
  else if String.eqb field "category" then
    if is_empty value then Some "Category is required" else None
  else if String.eqb field "description" then
    if negb (is_empty value) && (255 <? Z.of_nat (String.length value))
    then Some "Description too long"
    else None
  else None.

(** [truncate(str, length)]; [substring(0, n)] takes nothing for a negative
    [n]. *)
Definition truncate (str : string) (length : Z) : string :=
  if is_empty str || (Z.of_nat (String.length str) <=? length) then str
  else String.substring 0 (Z.to_nat length) str +:+ "...".

(** The replacement of one character by [escapeHtml]. *)
Definition escape_char (c : ascii) : string :=
  if code c =? 38 then "&amp;"
  else if code c =? 60 then "&lt;"
  else if code c =? 62 then "&gt;"
  else if code c =? 34 then "&quot;"
  else if code c =? 39 then "&#039;"
  else String c EmptyString.

(** [escapeHtml]: every [&], [<], [>], double and single quote is
    replaced. *)
Fixpoint escapeHtml (text : string) : string :=
  match text with
  | EmptyString => EmptyString
  | String c rest => escape_char c +:+ escapeHtml rest
  end.

(** The characters that open a tag or close an attribute value: [<], [>],
    the double and the single quote. *)
Definition markup (c : ascii) : Prop :=
  code c = 60 \/ code c = 62 \/ code c = 34 \/ code c = 39.

End ClientUtils.

(* ===================================================================== *)
(** * The client API layer *)
(* ===================================================================== *)

Module ClientApi.
Import JS.

(** A parsed JSON document. *)
Inductive json :=
  | JNull
  | JBool (b : bool)
  | JNum (x : number)
  | JStr (s : string)
  | JArr (items : list json)
  | JObj (fields : list (string * json)).

(** [v.k] for one of the property names read below; [None] is
    [undefined].  Reading a property of [null] or [undefined] throws, which
    the caller handles; on a boolean, number, string or array these names
    are not defined. *)
Definition prop (k : string) (v : json) : option json :=
  match v with
  | JObj fields => snd <$> find (fun kv => String.eqb (fst kv) k) fields
  | _ => None
  end.

(** [v?.k] *)
Definition optional_prop (k : string) (v : option json) : option json :=
  match v with
  | None | Some JNull => None
  | Some v => prop k v
  end.

Definition json_truthy (v : option json) : bool :=
  match v with
  | None | Some JNull => false
  | Some (JBool b) => b
  | Some (JNum x) => negb (is_zero x || is_nan x)
  | Some (JStr s) => negb (is_empty s)
  | Some (JArr _) | Some (JObj _) => true
  end.

(** An [Error] object on the client.  [message] holds the value given to
    [new Error], whose string form is the message. *)
Inductive error :=
  | Error (message : json) (statusCode : option Z) (code details : option json)
          (originalError : option error).

Definition message_of (e : error) : json := let 'Error m _ _ _ _ := e in m.
Definition statusCode_of (e : error) : option Z := let 'Error _ s _ _ _ := e in s.
Definition code_of (e : error) : option json := let 'Error _ _ c _ _ := e in c.
Definition details_of (e : error) : option json := let 'Error _ _ _ d _ := e in d.

Definition new_Error (m : json) : error := Error m None None None None.

(** What [fetch] resolved with.  [body] is the JSON document of the
    response, or nothing when the body is not JSON and [response.json()]
    rejects. *)
Record response := {
  status : Z;
  statusText : string;
  body : option json
}.

(** [response.ok] *)
Definition ok (r : response) : bool := (200 <=? status r) && (status r <=? 299).

(** How the [fetch] call ends: it rejects (no response was obtained), or it
    resolves with a response. *)
Inductive fetched :=
  | Rejected (reason : string)
  | Resolved (r : response).

(** [handleErrorResponse]; the [catch] also covers the TypeError of reading
    [.error] on a [null] document. *)
Definition handleErrorResponse (response : response) : error :=
  let generic :=
    new_Error (JStr ("HTTP " +:+ pretty (status response) +:+ ": " +:+ statusText response)) in
  match body response with
  | None => generic
  | Some JNull => generic
  | Some errorData =>
      let e := prop "error" errorData in
      Error (if json_truthy (optional_prop "message" e)
             then default JNull (optional_prop "message" e)
             else JStr "An error occurred")
            (Some (status response))
            (optional_prop "code" e)
            (optional_prop "details" e)
            None
  end.

Definition network_error_message : string :=
  "Network error. Check your internet connection.".

(** [handleNetworkError] *)
Definition handleNetworkError (e : error) : error :=
  Error (JStr network_error_message) None None None (Some e).

(** The body of the [try] block of [fetchAPI]: the document returned, or
    the error thrown inside the block. *)
Definition fetchAPI_try (f : fetched) : json + error :=
  match f with
  | Rejected reason => inr (new_Error (JStr reason))
  | Resolved response =>
      (* Handle non-OK responses *)
      if negb (ok response) then inr (handleErrorResponse response)
      else
        (* Parse and return JSON *)
        match body response with
        | Some data => inl data
        | None => inr (new_Error (JStr "Unexpected token in JSON"))
        end
  end.

(** [fetchAPI]: the [catch] block rethrows an error that has a truthy
    [statusCode] and wraps every other one as a network error. *)
Definition fetchAPI (f : fetched) : json + error :=
  match fetchAPI_try f with
  | inl data => inl data
  | inr e =>
      match statusCode_of e with
      | Some s => if s =? 0 then inr (handleNetworkError e) else inr e
      | None => inr (handleNetworkError e)
      end
  end.

(** ** The endpoint wrappers *)

(** What [fetch] is called with. *)
Record request := {
  url : string;
  method : string;
  sent : option json
}.

(** The network: how a request ends. *)
Definition network : Type := request -> fetched.

(** The request [fetchAPI(url, method, body)] makes: the body is attached
    when it is truthy. *)
Definition fetchAPI_request (url method : string) (body : option json) : request :=
  {| url := url; method := method; sent := if json_truthy body then body else None |}.

(** [fetchAPI(url, method, body)] over a network: the request made and the
    outcome. *)
Definition fetchAPI_call (net : network) (url method : string) (body : option json)
    : list request * (json + error) :=
  ([fetchAPI_request url method body], fetchAPI (net (fetchAPI_request url method body))).

(** [response.k] on the document a call returned: reading a property of
    [null] throws a TypeError. *)
Definition read (k : string) (response : json) : option json + error :=
  match response with
  | JNull =>
      inr (new_Error (JStr ("Cannot read properties of null (reading '" +:+ k +:+ "')")))
  | _ => inl (prop k response)
  end.

Section Endpoints.

(** API_BASE_URL *)
Variable API_BASE_URL : string.
Variable net : network.

(** [addExpense]: POST the expense, return [response.data]; an error is
    logged and thrown again. *)
Definition addExpense (expense : json) : list request * (option json + error) :=
  let '(calls, r) := fetchAPI_call net (API_BASE_URL +:+ "/expenses") "POST" (Some expense) in
  match r with
  | inl response => (calls, read "data" response)
  | inr e => (calls, inr e)
  end.

(** [deleteExpense]: DELETE the expense of that id, return
    [response.success]. *)
Definition deleteExpense (id : string) : list request * (option json + error) :=
  let '(calls, r) :=
    fetchAPI_call net (API_BASE_URL +:+ "/expenses/" +:+ id) "DELETE" (Some JNull) in
  match r with
  | inl response => (calls, read "success" response)
  | inr e => (calls, inr e)
  end.

(** [getCategories]: [response.data || []] *)
Definition getCategories : list request * (json + error) :=
  let '(calls, r) :=
    fetchAPI_call net (API_BASE_URL +:+ "/expenses/categories") "GET" (Some JNull) in
  match r with
  | inl response =>
      match read "data" response with
      | inl data => (calls, inl (if json_truthy data then default JNull data else JArr []))
      | inr e => (calls, inr e)
      end
  | inr e => (calls, inr e)
  end.

(** [getSummary]: [response.data || {}] *)
Definition getSummary : list request * (json + error) :=
  let '(calls, r) :=
    fetchAPI_call net (API_BASE_URL +:+ "/expenses/summary") "GET" (Some JNull) in
  match r with
  | inl response =>
      match read "data" response with
      | inl data => (calls, inl (if json_truthy data then default JNull data else JObj []))
      | inr e => (calls, inr e)
      end
  | inr e => (calls, inr e)
  end.

End Endpoints.

End ClientApi.

(* ===================================================================== *)
(** * Vocabulary of the properties *)
(* ===================================================================== *)

Module Props.
Import JS.

(** What each group of checks of [validateExpense] adds to the report
    ([validateExpense_errors] below shows the report is their
    concatenation). *)
Definition date_errors (now : Z) (v : value) : list verror :=
  if negb (truthy v) then [ {| field := "date"; message := "Date is required" |} ]
  else if negb (Validators.isValidDate v) then
    [ {| field := "date"; message := "Invalid date format (use YYYY-MM-DD)" |} ]
  else if date_gt (Validators.Date_of v) (Some now) then
    [ {| field := "date"; message := "Date cannot be in the future" |} ]
  else [].

Definition amount_errors (v : value) : list verror :=
  if Validators.is_undefined v || Validators.is_null v || Validators.is_empty_string v then
    [ {| field := "amount"; message := "Amount is required" |} ]
  else if isNaN v then [ {| field := "amount"; message := "Amount must be a number" |} ]
  else if num_le (parseFloat v) zero then
    [ {| field := "amount"; message := "Amount must be greater than 0" |} ]
  else if num_gt (parseFloat v) (number_of_Z 999999) then
    [ {| field := "amount"; message := "Amount too large" |} ]
  else [].

Definition category_errors (v : value) : list verror :=
  if negb (truthy v) then [ {| field := "category"; message := "Category is required" |} ]
  else if negb (Validators.includes Validators.VALID_CATEGORIES v) then
    [ {| field := "category";
         message := "Category must be one of: "
                    +:+ Validators.join ", " Validators.VALID_CATEGORIES |} ]
  else [].

Definition description_errors (v : value) : list verror :=
  if truthy v && negb (Validators.is_string v) then
    [ {| field := "description"; message := "Description must be text" |} ]
  else if truthy v && (255 <? Validators.length_of v) then
    [ {| field := "description"; message := "Description too long (max 255 chars)" |} ]
  else [].



(** A WHERE clause that restricts the amount. *)
Definition is_amount_range (c : Database.condition) : bool :=
  match c with Database.AmountBetween _ _ => true | _ => false end.
Definition range_applied (w : list Database.condition) : bool := existsb is_amount_range w.

(** A key that is present in a filter. *)
Definition present (k : string) (o : gmap string value) : Prop := is_Some (o !! k).


(** The calendar day (days since 1970-01-01) of an instant, on a clock [tz]
    minutes ahead of UTC. *)
Definition local_day (tz now : Z) : Z := (now + tz * 60000) / ms_per_day.

(** The response to a request whose sanitized record does not validate. *)
Definition validation_failure (development : bool) (errors : list verror) : Controller.response :=
  {| Controller.status := 400;
     Controller.body := Controller.Failure "VALIDATION_ERROR" "Validation failed"
               (if development then Some (Some errors) else None) |}.

(** The response to a request for an id that has no row. *)
Definition not_found_response (development : bool) (i : Z) : Controller.response :=
  {| Controller.status := 404;
     Controller.body := Controller.Failure "NOT_FOUND" (Database.not_found_message i)
                          (if development then Some None else None) |}.

(** ** Sample data *)

Definition empty_db : Database.db := {| Database.rows := []; Database.seq := 0 |}.

(** 2024-01-15T04:30:00Z, which is 10:00 on 2024-01-15 at UTC+05:30. *)
Definition sample_now : Z := 1705293000000.
Definition sample_ts : string := "2024-01-15 04:30:00".

Definition sample_body (amount : value) : gmap string value :=
  <["date" := VStr "2024-01-15"]>
  (<["amount" := amount]>
  (<["category" := VStr "Food"]> ∅)).

Definition sample_expense (amount : number) : Validators.expense :=
  {| Validators.date := VStr "2024-01-15";
     Validators.amount := VNum amount;
     Validators.category := VStr "Food";
     Validators.description := VNull |}.

Definition sample_row (i : Z) (category : string) (amount : Z) : Database.row :=
  {| Database.id := i;
     Database.date := Database.SText "2024-01-15";
     Database.amount := Database.SReal (number_of_Z amount);
     Database.category := Database.SText category;
     Database.description := Database.SNull;
     Database.created_at := sample_ts |}.

(** A table with one row whose category is not an allowed one. *)
Definition stale_db : Database.db :=
  {| Database.rows := [sample_row 1 "Misc" 20]; Database.seq := 1 |}.

Definition amount_only (amount : value) : gmap string value :=
  <["amount" := amount]> ∅.



(** A filter whose lower bound is present but empty, as the query string
    [?minAmount=&maxAmount=10] gives. *)
Definition empty_min_filter : gmap string value :=
  <["minAmount" := VStr EmptyString]> (<["maxAmount" := VStr "10"]> ∅).

Definition both_bounds_filter : gmap string value :=
  <["minAmount" := VStr "5"]> (<["maxAmount" := VStr "10"]> ∅).

(** A comparison under which no range condition holds. *)
Definition never_comparable (_ : Database.sqlval) (_ : value) : option comparison := None.

(** A form dated 2024-01-15, and a browser clock at UTC+05:30. *)
Definition today_form : ClientUtils.formData :=
  {| ClientUtils.date := "2024-01-15";
     ClientUtils.amount := "10";
     ClientUtils.category := "Food";
     ClientUtils.description := EmptyString |}.

Definition tz_india : Z := 330.

(** A completed response of a gateway, whose body is an HTML page. *)
Definition bad_gateway : ClientApi.response :=
  {| ClientApi.status := 502;
     ClientApi.statusText := "Bad Gateway";
     ClientApi.body := None |}.

(** The example bodies of the specification. *)
Definition far_future_body : gmap string value :=
  <["date" := VStr "2099-01-01"]>
  (<["amount" := VNum (number_of_Z 10)]>
  (<["category" := VStr "Food"]> ∅)).

Definition food_filter : gmap string value := <["category" := VStr "Food"]> ∅.

(** Equality of texts, for listings filtered by category. *)
Definition text_equal (a : Database.sqlval) (p : value) : option comparison :=
  match a, p with
  | Database.SText s, VStr t => Some (if String.eqb s t then Eq else Lt)
  | _, _ => None
  end.

Definition two_rows_db : Database.db :=
  {| Database.rows := [sample_row 1 "Food" 12; sample_row 2 "Transport" 30];
     Database.seq := 2 |}.

End Props.

(* ===================================================================== *)
(** * backend/routes/expenses.js: the router *)
(* ===================================================================== *)

Module Routes.
Import JS Database Controller.

(** A request to one of the routes of the router.  The requests that write
    carry the readings of the clock the handler takes while it runs: [now]
    for [new Date()], [ts] for CURRENT_TIMESTAMP. *)
Inductive request :=
  | GetExpenses (query : gmap string value)
  | GetCategories
  | GetSummary
  | PostExpense (now : Z) (ts : string) (body : gmap string value)
  | PutExpense (now : Z) (i : Z) (body : gmap string value)
  | DeleteExpense (i : Z).

Section Server.

(** SQLite's comparison and aggregates, as in [Database]. *)
Variable sql_compare : sqlval -> value -> option comparison.
Variable sum_real : list sqlval -> number.
Variable round2 : number -> number.

(** NODE_ENV is ['development']. *)
Variable development : bool.

(** The handler each route is bound to. *)
Definition router (req : request) : M response :=
  match req with
  | GetExpenses query => fetchAllExpenses sql_compare query
  | GetCategories => ret getCategories
  | GetSummary => getSummary sum_real round2
  | PostExpense now ts body => createExpense now ts body
  | PutExpense now i body => updateExpenseData now i body
  | DeleteExpense i => removeExpense i
  end.

(** One request served: the table afterwards and the response. *)
Definition handle (req : request) (d : db) : db * response :=
  serve development (router req) d.

(** The table after a sequence of requests. *)
Definition run (reqs : list request) (d : db) : db :=
  fold_left (fun d req => fst (handle req d)) reqs d.

End Server.

End Routes.

(* ===================================================================== *)
(** * Invariants of the table *)
(* ===================================================================== *)

Module Invariants.
Import JS Database.

(** The ids in the table are pairwise distinct and none exceeds the largest
    id handed out so far. *)
Definition ids_wf (d : db) : Prop :=
  NoDup (map id (rows d)) /\ forall r, r ∈ rows d -> id r <= seq d.

(** A stored amount the validator lets through: a number above 0 and at
    most 999999. *)
Definition amount_ok (v : sqlval) : bool :=
  match v with
  | SReal x => num_lt zero x && num_le x (number_of_Z 999999)
  | _ => false
  end.

(** A stored date the validator lets through: a text the date pattern and
    the engine's date parser accept. *)
Definition date_ok (v : sqlval) : bool :=
  match v with
  | SText s => Validators.isValidDate (VStr s)
  | _ => false
  end.

Definition category_ok (v : sqlval) : bool :=
  match v with
  | SText s => bool_decide (s ∈ Validators.VALID_CATEGORIES)
  | _ => false
  end.

(** NULL, or a non-empty text without white space at its ends and of at most
    255 characters. *)
Definition description_ok (v : sqlval) : bool :=
  match v with
  | SNull => true
  | SText s => negb (is_empty s) && String.eqb (trim s) s
               && (Z.of_nat (String.length s) <=? 255)
  | SReal _ => false
  end.

(** A row that meets the validator's rules other than the one on the current
    time. *)
Definition row_ok (r : row) : bool :=
  date_ok (date r) && amount_ok (amount r) && category_ok (category r)
  && description_ok (description r).

Definition table_ok (d : db) : bool := forallb row_ok (rows d).

(** A value [v?.trim()] throws on. *)
Definition untrimmable (v : value) : bool :=
  match v with
  | VBool _ | VNum _ | VObject => true
  | _ => false
  end.

(** The response to a request that made the sanitizer throw. *)
Definition internal_error (development : bool) (message : string) : Controller.response :=
  {| Controller.status := 500;
     Controller.body := Controller.Failure "INTERNAL_SERVER_ERROR" message
                          (if development then Some None else None) |}.

(** The dates of a list of rows, newest first: each date is at least every
    date after it. *)
Definition newest_first (l : list row) : Prop :=
  StronglySorted (fun a b => sqlval_lt (date a) (date b) = false) l.

Definition has_text_date (r : row) : Prop := exists s, date r = SText s.

(** The sum of a list of integers. *)
Definition sumZ (l : list Z) : Z := fold_right Z.add 0 l.

(** The row [addExpense] inserts for a sanitized record. *)
Definition inserted_row (ts : string) (e : Validators.expense) (d : db) : row :=
  {| id := next_id d;
     date := bind_param (Validators.date e);
     amount := bind_param (Validators.amount e);
     category := bind_param (Validators.category e);
     description := bind_param (or_else (Validators.description e) VNull);
     created_at := ts |}.

(** A row after [updateExpense] has set its four fields from a sanitized
    record. *)
Definition updated_row (e : Validators.expense) (r : row) : row :=
  {| id := id r;
     date := bind_param (Validators.date e);
     amount := bind_param (Validators.amount e);
     category := bind_param (Validators.category e);
     description := bind_param (Validators.description e);
     created_at := created_at r |}.

End Invariants.

(* ===================================================================== *)
(** * The application controller of the client *)
(* ===================================================================== *)

Module App.
Import JS ClientApi.

(** The form data as the JSON object that is sent, and as the object the
    server reads from the request body. *)
Definition form_json (f : ClientUtils.formData) : json :=
  JObj [ ("date", JStr (ClientUtils.date f));
         ("amount", JStr (ClientUtils.amount f));
         ("category", JStr (ClientUtils.category f));
         ("description", JStr (ClientUtils.description f)) ].

Definition form_body (f : ClientUtils.formData) : gmap string value :=
  <["date" := VStr (ClientUtils.date f)]>
  (<["amount" := VStr (ClientUtils.amount f)]>
  (<["category" := VStr (ClientUtils.category f)]>
  (<["description" := VStr (ClientUtils.description f)]> ∅))).

(** [appState.expenses]: what the API calls returned; an entry is
    [undefined] when a response had no [data]. *)
Definition expenses : Type := list (option json).

(** [e.id !== id] for the id read from a [data-id] attribute, a string;
    nothing when reading [e.id] throws. *)
Definition id_differs (id : string) (e : option json) : option bool :=
  match e with
  | None | Some JNull => None
  | Some v =>
      Some (negb (match prop "id" v with
                  | Some (JStr s) => String.eqb s id
                  | _ => false
                  end))
  end.

(** [expenses.filter(e => e.id !== id)]; nothing when the callback
    throws. *)
Fixpoint without_id (id : string) (l : expenses) : option expenses :=
  match l with
  | [] => Some []
  | e :: rest =>
      match id_differs id e, without_id id rest with
      | Some keep, Some rest' => Some (if keep then e :: rest' else rest')
      | _, _ => None
      end
  end.

Section Browser.

Variable API_BASE_URL : string.
Variable net : network.

(** [onFormSubmit], as to the requests it makes and what it leaves in
    [appState.expenses] (messages and rendering are not modelled): nothing is
    sent when the form does not validate; a returned expense is put in
    front. *)
Definition onFormSubmit (tz now : Z) (formData : ClientUtils.formData) (state : expenses)
    : list request * expenses :=
  match ClientUtils.validateExpenseForm tz now formData with
  | Some validationError => ([], state)
  | None =>
      match addExpense API_BASE_URL net (form_json formData) with
      | (calls, inl newExpense) => (calls, newExpense :: state)
      | (calls, inr error) => (calls, state)
      end
  end.

(** [onDeleteExpense], likewise: after a successful call the list is
    replaced by the filtered one, unless filtering throws. *)
Definition onDeleteExpense (id : string) (state : expenses) : list request * expenses :=
  match deleteExpense API_BASE_URL net id with
  | (calls, inl _) =>
      match without_id id state with
      | Some state' => (calls, state')
      | None => (calls, state)
      end
  | (calls, inr error) => (calls, state)
  end.

End Browser.

Section Messages.

(** The engine's conversion of a number to a string. *)
Variable number_to_string : number -> string.

(** ToString on a JSON value; in an array [null] counts as empty. *)
Fixpoint json_to_string (v : json) : string :=
  match v with
  | JNull => "null"
  | JBool b => if b then "true" else "false"
  | JNum x => number_to_string x
  | JStr s => s
  | JArr items =>
      Validators.join ","
        (map (fun x => match x with JNull => EmptyString | _ => json_to_string x end) items)
  | JObj _ => "[object Object]"
  end.

(** [items.map(e => e.message)]; nothing when an item is [null]. *)
Fixpoint messages_of (items : list json) : option (list (option json)) :=
  match items with
  | [] => Some []
  | JNull :: _ => None
  | e :: rest => option_map (cons (prop "message" e)) (messages_of rest)
  end.

(** [strings.join(sep)]: [undefined] and [null] count as empty. *)
Definition join_values (sep : string) (l : list (option json)) : string :=
  Validators.join sep
    (map (fun x => match x with
                   | None | Some JNull => EmptyString
                   | Some v => json_to_string v
                   end) l).

(** The message [onFormSubmit] shows for an error thrown by [addExpense];
    on the right, the TypeError of calling [map] on a value that has none or
    of reading [message] on [null]. *)
Definition submit_error_message (e : error) : string + string :=
  match code_of e with
  | Some (JStr c) =>
      if String.eqb c "VALIDATION_ERROR" then
        match optional_prop "errors" (details_of e) with
        | None | Some JNull => inl "Validation failed"
        | Some (JArr items) =>
            match messages_of items with
            | Some ms =>
                let errorMessages := join_values ", " ms in
                inl (if is_empty errorMessages then "Validation failed" else errorMessages)
            | None => inr "Cannot read properties of null (reading 'message')"
            end
        | Some _ => inr "error.details?.errors?.map is not a function"
        end
      else
        let m := json_to_string (message_of e) in
        inl (if is_empty m then "Failed to add expense" else m)
  | _ =>
      let m := json_to_string (message_of e) in
      inl (if is_empty m then "Failed to add expense" else m)
  end.

End Messages.

End App.

(* ===================================================================== *)
(** * Responses on the wire *)
(* ===================================================================== *)

Module Wire.
Import JS.

(** The JSON text of a stored value: NULL is [null], as is a number that is
    not finite; -0 is written [0]. *)
Definition sqlval_json (v : Database.sqlval) : ClientApi.json :=
  match v with
  | Database.SNull => ClientApi.JNull
  | Database.SReal x =>
      match x with
      | S754_zero _ => ClientApi.JNum zero
      | S754_finite _ _ _ => ClientApi.JNum x
      | _ => ClientApi.JNull
      end
  | Database.SText s => ClientApi.JStr s
  end.

Definition row_json (r : Database.row) : ClientApi.json :=
  ClientApi.JObj
    [ ("id", ClientApi.JNum (number_of_Z (Database.id r)));
      ("date", sqlval_json (Database.date r));
      ("amount", sqlval_json (Database.amount r));
      ("category", sqlval_json (Database.category r));
      ("description", sqlval_json (Database.description r));
      ("created_at", ClientApi.JStr (Database.created_at r)) ].

Definition verror_json (e : verror) : ClientApi.json :=
  ClientApi.JObj [ ("field", ClientApi.JStr (field e));
                   ("message", ClientApi.JStr (message e)) ].

(** The document [res.json] sends for the two envelopes the form deals with:
    the error envelope of [errorHandler] and the envelope of one expense.  A
    property whose value is [undefined] is left out. *)
Definition document (r : Controller.response) : option ClientApi.json :=
  match Controller.body r with
  | Controller.Failure code message details =>
      Some (ClientApi.JObj
              [ ("success", ClientApi.JBool false);
                ("error",
                 ClientApi.JObj
                   ([ ("code", ClientApi.JStr code);
                      ("message", ClientApi.JStr message) ]
                    ++ match details with
                       | None => []
                       | Some None => [ ("details", ClientApi.JObj []) ]
                       | Some (Some errors) =>
                           [ ("details",
                              ClientApi.JObj
                                [ ("errors", ClientApi.JArr (map verror_json errors)) ]) ]
                       end)%list) ])
  | Controller.ExpenseData data message =>
      Some (ClientApi.JObj
              ([ ("success", ClientApi.JBool true) ]
               ++ match data with
                  | Some row => [ ("data", row_json row) ]
                  | None => []
                  end
               ++ [ ("message", ClientApi.JStr message) ])%list)
  | _ => None
  end.

(** The response the browser gets; [statusText] is the reason phrase the
    HTTP layer adds. *)
Definition received (statusText : string) (r : Controller.response)
    : option ClientApi.response :=
  option_map (fun doc => {| ClientApi.status := Controller.status r;
                            ClientApi.statusText := statusText;
                            ClientApi.body := Some doc |})
             (document r).

End Wire.

(* ===================================================================== *)
(** * The built-ins and the handlers on the specification's examples *)
(* ===================================================================== *)

Module Examples.
Import JS Database Controller Props.

Example parseFloat_decimal :
  parseFloat (VStr "42.50") = SFdiv prec emax (number_of_Z 85) (number_of_Z 2).
Proof. vm_compute. reflexivity. Qed.

Example parseFloat_prefix : parseFloat (VStr "  3.5e2px") = number_of_Z 350.
Proof. vm_compute. reflexivity. Qed.

Example parseFloat_rounds_to_nearest :
  parseFloat (VStr "999999.00000000001") = number_of_Z 999999.
Proof. vm_compute. reflexivity. Qed.

Example Number_of_prefix_is_NaN : ToNumber (VStr "3.5e2px") = NaN.
Proof. vm_compute. reflexivity. Qed.

Example trim_both_ends : trim "  lunch with team " = "lunch with team".
Proof. vm_compute. reflexivity. Qed.

Example date_is_utc_midnight : new_Date "2024-01-15" = Some 1705276800000.
Proof. vm_compute. reflexivity. Qed.

Example month_out_of_range : new_Date "2024-13-01" = None.
Proof. vm_compute. reflexivity. Qed.

(** create [{date:"2024-01-15", amount:"42.50", category:"Food"}] gives 201
    with amount 42.5, category "Food" and a null description. *)
Example create_example :
  snd (serve false (createExpense sample_now sample_ts (sample_body (VStr "42.50"))) empty_db)
  = {| status := 201;
       body := ExpenseData
                 (Some {| id := 1;
                          date := SText "2024-01-15";
                          amount := SReal (SFdiv prec emax (number_of_Z 85) (number_of_Z 2));
                          category := SText "Food";
                          description := SNull;
                          created_at := sample_ts |})
                 "Expense created successfully" |}.
Proof. vm_compute. reflexivity. Qed.

(** create [{date:"2099-01-01", amount:10, category:"Food"}] gives 400
    VALIDATION_ERROR citing the date field. *)
Example create_future_example :
  serve true (createExpense sample_now sample_ts far_future_body) empty_db
  = (empty_db,
     validation_failure true
       [ {| field := "date"; message := "Date cannot be in the future" |} ]).
Proof. vm_compute. reflexivity. Qed.

(** Listing with [{category:"Food"}] after inserting a "Food" and a
    "Transport" row gives the "Food" row alone. *)
Example list_by_category_example :
  getAllExpenses text_equal food_filter two_rows_db
  = (two_rows_db, Ok [sample_row 1 "Food" 12]).
Proof. vm_compute. reflexivity. Qed.

End Examples.

(* ===================================================================== *)
(** * Properties of the validator and the sanitizer *)
(* ===================================================================== *)

Module ValidatorProps.
Import JS Validators Props.

Lemma validateExpense_errors now e :
  errors (validateExpense now e)
  = (date_errors now (date e) ++ amount_errors (amount e)
     ++ category_errors (category e) ++ description_errors (description e))%list.
Proof.
  unfold validateExpense, date_errors, amount_errors, category_errors,
    description_errors, push.
  cbn [errors].
  repeat match goal with |- context [if ?b then _ else _] => destruct b end;
    reflexivity.
Qed.

Lemma validateExpense_isValid now e :
  isValid (validateExpense now e) = true <-> errors (validateExpense now e) = [].
Proof.
  unfold validateExpense. cbn [isValid errors].
  match goal with |- Nat.eqb (length ?l) 0 = true <-> _ => destruct l end;
    cbn; split; congruence.
Qed.







End ValidatorProps.

(* ===================================================================== *)
(** * Properties of the request pipeline *)
(* ===================================================================== *)

Module PipelineProps.
Import JS Database Controller Props ValidatorProps.

(** What the sanitizer returns, when it returns. *)
Lemma sanitizeExpense_Ok body e :
  Validators.sanitizeExpense body = Ok e ->
  exists d c t,
    Validators.optional_trim "expense.date" (get body "date") = Ok d
    /\ Validators.optional_trim "expense.category" (get body "category") = Ok c
    /\ Validators.optional_trim "expense.description" (get body "description") = Ok t
    /\ e = {| Validators.date := d;
              Validators.amount := VNum (parseFloat (get body "amount"));
              Validators.category := c;
              Validators.description := or_else t VNull |}.
Proof.
  unfold Validators.sanitizeExpense, mbind, result_bind.
  destruct (Validators.optional_trim "expense.date" _) as [d |]; [| discriminate].
  destruct (Validators.optional_trim "expense.category" _) as [c |]; [| discriminate].
  destruct (Validators.optional_trim "expense.description" _) as [t |]; [| discriminate].
  intros [= <-]. eauto 10.
Qed.

Lemma sanitizeExpense_amount body e :
  Validators.sanitizeExpense body = Ok e ->
  Validators.amount e = VNum (parseFloat (get body "amount")).
Proof.
  intros H. apply sanitizeExpense_Ok in H as (d & c & t & _ & _ & _ & ->). reflexivity.
Qed.

Lemma createExpense_invalid development now ts body d e :
  Validators.sanitizeExpense body = Ok e ->
  Validators.isValid (Validators.validateExpense now e) = false ->
  serve development (createExpense now ts body) d
  = (d, validation_failure development (Validators.errors (Validators.validateExpense now e))).
Proof.
  intros Hs Hv. unfold serve, createExpense, bind, lift.
  rewrite Hs, Hv. cbn. reflexivity.
Qed.

Lemma parseFloat_number_le x : num_le (parseFloat (VNum x)) zero = num_le x zero.
Proof. destruct x as [[] | | |]; reflexivity. Qed.

Lemma parseFloat_number_gt x c : num_gt (parseFloat (VNum x)) c = num_gt x c.
Proof. destruct x as [[] | | |], c as [[] | | |]; reflexivity. Qed.

Lemma amount_errors_out_of_range x :
  num_le x zero = true \/ num_gt x (number_of_Z 999999) = true ->
  exists m, amount_errors (VNum x) = [ {| field := "amount"; message := m |} ].
Proof.
  intros H. unfold amount_errors.
  rewrite parseFloat_number_le, parseFloat_number_gt.
  change (isNaN (VNum x)) with (is_nan x).
  cbn [Validators.is_undefined Validators.is_null Validators.is_empty_string orb].
  destruct (is_nan x); [eauto |].
  destruct (num_le x zero); [eauto |].
  destruct H as [H | ->]; [discriminate | eauto].
Qed.

Lemma errors_nonempty_invalid now e :
  Validators.errors (Validators.validateExpense now e) <> [] ->
  Validators.isValid (Validators.validateExpense now e) = false.
Proof.
  intros H. destruct (Validators.isValid _) eqn:Hv; [| reflexivity].
  apply validateExpense_isValid in Hv. contradiction.
Qed.

(** C3.  A record whose sanitized amount is [<= 0] or [> 999999] gets an
    entry for the amount field in the validation report, and the create
    handler answers 400 VALIDATION_ERROR and leaves the table as it was. *)
Theorem amount_out_of_range_rejected development now ts body d e x :
  Validators.sanitizeExpense body = Ok e ->
  Validators.amount e = VNum x ->
  num_le x zero = true \/ num_gt x (number_of_Z 999999) = true ->
  (exists m, {| field := "amount"; message := m |}
             ∈ Validators.errors (Validators.validateExpense now e))
  /\ serve development (createExpense now ts body) d
     = (d, validation_failure development
             (Validators.errors (Validators.validateExpense now e))).
Proof.
  intros Hs Ha Hx.
  destruct (amount_errors_out_of_range x Hx) as [m Hm].
  assert (Hin : {| field := "amount"; message := m |}
                ∈ Validators.errors (Validators.validateExpense now e)).
  { rewrite validateExpense_errors, Ha, Hm.
    apply elem_of_app; right. apply elem_of_app; left. apply list_elem_of_here. }
  split; [eauto |].
  apply createExpense_invalid; [exact Hs |].
  apply errors_nonempty_invalid. intros Hnil. rewrite Hnil in Hin.
  by apply elem_of_nil in Hin.
Qed.

Lemma amount_out_of_range_rejected_witness :
  (exists m, {| field := "amount"; message := m |}
             ∈ Validators.errors
                 (Validators.validateExpense sample_now (sample_expense (number_of_Z (-3)))))
  /\ serve false (createExpense sample_now sample_ts (sample_body (VStr "-3"))) empty_db
     = (empty_db,
        validation_failure false
          (Validators.errors
             (Validators.validateExpense sample_now (sample_expense (number_of_Z (-3)))))).
Proof.
  apply (amount_out_of_range_rejected false sample_now sample_ts (sample_body (VStr "-3"))
           empty_db (sample_expense (number_of_Z (-3))) (number_of_Z (-3))).
  - vm_compute. reflexivity.
  - reflexivity.
  - left. vm_compute. reflexivity.
Defined.

(** [parseFloat] finds no number in [undefined], [null], a boolean or a
    plain object, nor in a string that does not start with a decimal
    literal once leading white space is skipped. *)
Lemma parseFloat_of_non_string v :
  match v with VNum _ | VStr _ => True | _ => is_nan (parseFloat v) = true end.
Proof. destruct v as [| | [] | | |]; exact I || reflexivity. Qed.

Lemma parseFloat_without_literal s :
  take_decimal (trimStart s) = None -> parseFloat (VStr s) = NaN.
Proof. intros H. cbn. unfold parseFloat_string. by rewrite H. Qed.




(** ** Create, then read back *)

Lemma fold_max_ge (l : list Z) (a x : Z) : x ∈ l -> x <= fold_right Z.max a l.
Proof.
  induction l as [| y l IH]; intros Hx.
  - by apply elem_of_nil in Hx.
  - apply elem_of_cons in Hx as [-> | Hx]; cbn; [lia |].
    specialize (IH Hx). lia.
Qed.

Lemma next_id_fresh d r : r ∈ rows d -> id r < next_id d.
Proof.
  intros Hr. unfold next_id.
  assert (id r <= fold_right Z.max (seq d) (map id (rows d))); [| lia].
  apply fold_max_ge. change (id r ∈ id <$> rows d). by apply list_elem_of_fmap_2.
Qed.

Lemma find_app_last (l : list row) r i :
  (forall r', r' ∈ l -> id r' <> i) -> id r = i ->
  find (fun r => id r =? i) (l ++ [r]) = Some r.
Proof.
  intros Hl Hr. induction l as [| y l IH]; cbn.
  - apply Z.eqb_eq in Hr. by rewrite Hr.
  - destruct (Z.eqb_spec (id y) i) as [Hy | _].
    + exfalso. apply (Hl y); [apply list_elem_of_here | exact Hy].
    + apply IH. intros r' Hr'. apply Hl. by apply list_elem_of_further.
Qed.

Lemma date_errors_nil now v : date_errors now v = [] -> exists s, v = VStr s.
Proof.
  unfold date_errors. destruct (negb (truthy v)); [discriminate |].
  destruct v; cbn; try discriminate. eauto.
Qed.

Lemma category_errors_nil v : category_errors v = [] -> exists s, v = VStr s.
Proof.
  unfold category_errors. destruct (negb (truthy v)); [discriminate |].
  destruct v; cbn; try discriminate. eauto.
Qed.

Lemma amount_errors_nil_number x : amount_errors (VNum x) = [] -> is_nan x = false.
Proof.
  unfold amount_errors. change (isNaN (VNum x)) with (is_nan x).
  cbn [Validators.is_undefined Validators.is_null Validators.is_empty_string orb].
  destruct (is_nan x); [discriminate | reflexivity].
Qed.

(** The sanitized description is [null] or a non-empty string, and comes
    back from the table as it went in. *)
Lemma sanitized_description_roundtrip what v t :
  Validators.optional_trim what v = Ok t ->
  column_value (bind_param (or_else (or_else t VNull) VNull)) = or_else t VNull.
Proof.
  destruct v; cbn; intros [= <-]; try reflexivity.
  unfold or_else. cbn. destruct (is_empty (trim s)) eqn:Hs; cbn; [reflexivity |].
  by rewrite Hs.
Qed.

(** C1.  A record that validates after sanitization is stored by the create
    handler, which answers 201 with the stored row; reading that row back by
    its id gives the same row, whose date, amount, category and description
    are those of the sanitized record (the id and timestamp are the
    store's). *)
Theorem create_then_read_back development now ts body d e :
  Validators.sanitizeExpense body = Ok e ->
  Validators.isValid (Validators.validateExpense now e) = true ->
  exists r d',
    serve development (createExpense now ts body) d
    = (d', {| status := 201;
              body := ExpenseData (Some r) "Expense created successfully" |})
    /\ getExpenseById (id r) d' = (d', Ok (Some r))
    /\ column_value (date r) = Validators.date e
    /\ column_value (amount r) = Validators.amount e
    /\ column_value (category r) = Validators.category e
    /\ column_value (description r) = Validators.description e
    /\ id r = next_id d
    /\ created_at r = ts.
Proof.
  intros Hs Hv.
  pose proof (proj1 (validateExpense_isValid now e) Hv) as Hnil.
  rewrite validateExpense_errors in Hnil.
  apply app_eq_nil in Hnil as [Hd Hnil].
  apply app_eq_nil in Hnil as [Ha Hnil].
  apply app_eq_nil in Hnil as [Hc _].
  destruct (sanitizeExpense_Ok _ _ Hs) as (vd & vc & vt & _ & _ & Ht & He).
  apply date_errors_nil in Hd as [sd Hd].
  apply category_errors_nil in Hc as [sc Hc].
  rewrite (sanitizeExpense_amount _ _ Hs) in Ha. apply amount_errors_nil_number in Ha.
  set (x := parseFloat (get body "amount")) in *.
  set (r := {| id := next_id d; date := SText sd; amount := SReal x;
               category := SText sc;
               description := bind_param (or_else (or_else vt VNull) VNull);
               created_at := ts |}).
  assert (Hfind : find (fun r' => id r' =? next_id d) (rows d ++ [r]) = Some r).
  { apply find_app_last; [| reflexivity].
    intros r' Hr'. apply next_id_fresh in Hr'. lia. }
  exists r, {| rows := rows d ++ [r]; seq := next_id d |}.
  subst e. cbn in Hd, Hc. subst vd vc.
  split.
  { unfold serve, createExpense, bind, lift. rewrite Hs, Hv. cbn.
    unfold addExpense, sql_insert, not_null_violation, getExpenseById, sql_select_by_id.
    cbn. rewrite Ha. cbn. fold x. fold r. rewrite Hfind. reflexivity. }
  split.
  { unfold getExpenseById, sql_select_by_id. cbn. rewrite Hfind. reflexivity. }
  cbn. repeat split.
  eapply sanitized_description_roundtrip; exact Ht.
Qed.

Lemma create_then_read_back_witness :
  exists r d',
    serve false (createExpense sample_now sample_ts (sample_body (VStr "42.50"))) empty_db
    = (d', {| status := 201;
              body := ExpenseData (Some r) "Expense created successfully" |})
    /\ getExpenseById (id r) d' = (d', Ok (Some r))
    /\ column_value (date r) = VStr "2024-01-15"
    /\ column_value (amount r) = VNum (parseFloat_string "42.50")
    /\ column_value (category r) = VStr "Food"
    /\ column_value (description r) = VNull
    /\ id r = next_id empty_db
    /\ created_at r = sample_ts.
Proof.
  apply (create_then_read_back false sample_now sample_ts (sample_body (VStr "42.50"))
           empty_db (sample_expense (parseFloat_string "42.50"))).
  - vm_compute. reflexivity.
  - vm_compute. reflexivity.
Defined.

(** ** Update *)

(** [{ ...existing, ...body }]: a key of the body overrides the row's. *)
Lemma merge_get (body existing : gmap string value) k :
  get (body ∪ existing) k
  = match body !! k with Some v => v | None => get existing k end.
Proof.
  unfold get. rewrite lookup_union.
  destruct (body !! k), (existing !! k); reflexivity.
Qed.



(** ** Delete *)

Lemma find_none_absent (l : list row) i :
  (forall r, r ∈ l -> id r <> i) -> find (fun r => id r =? i) l = None.
Proof.
  induction l as [| y l IH]; intros Hl; cbn; [reflexivity |].
  destruct (Z.eqb_spec (id y) i) as [Hy | _].
  - exfalso. apply (Hl y); [apply list_elem_of_here | exact Hy].
  - apply IH. intros r Hr. apply Hl. by apply list_elem_of_further.
Qed.

Lemma filter_absent (l : list row) i :
  (forall r, r ∈ l -> id r <> i) ->
  filter (fun r => id r = i) l = [] /\ filter (fun r => id r ≠ i) l = l.
Proof.
  induction l as [| y l IH]; intros Hl; [split; reflexivity |].
  assert (Hy : id y <> i) by (apply Hl, list_elem_of_here).
  destruct IH as [IH1 IH2]; [intros r Hr; apply Hl; by apply list_elem_of_further |].
  split.
  - rewrite filter_cons_False by exact Hy. exact IH1.
  - rewrite filter_cons_True by exact Hy. by rewrite IH2.
Qed.

(** How [deleteExpense] settles, by the number of rows its statement
    removes. *)
Lemma deleteExpense_settles i d :
  snd (deleteExpense i d)
  = if Z.of_nat (length (filter (fun r => id r = i) (rows d))) =? 0
    then Throw (new_Error (not_found_message i))
    else Ok true.
Proof.
  unfold deleteExpense, sql_delete. cbn.
  destruct (Z.of_nat (length (filter (fun r => id r = i) (rows d))) =? 0); reflexivity.
Qed.

(** C5.  For an id that no row carries, the delete route answers 404
    NOT_FOUND and leaves the table alone; [deleteExpense] itself rejects with
    the not-found error there, and for any id it rejects that way exactly
    when its statement removed no row and resolves [true] otherwise. *)
Theorem delete_missing_id_not_found development i d :
  (forall r, r ∈ rows d -> id r <> i) ->
  serve development (removeExpense i) d = (d, not_found_response development i)
  /\ deleteExpense i d = (d, Throw (new_Error (not_found_message i)))
  /\ (forall j,
        let removed := filter (fun r => id r = j) (rows d) in
        (length removed = 0%nat ->
         snd (deleteExpense j d) = Throw (new_Error (not_found_message j)))
        /\ (length removed <> 0%nat -> snd (deleteExpense j d) = Ok true)).
Proof.
  intros Hi. split; [| split].
  - unfold serve, removeExpense, bind, getExpenseById, sql_select_by_id.
    rewrite (find_none_absent _ _ Hi). reflexivity.
  - unfold deleteExpense, sql_delete.
    destruct (filter_absent _ _ Hi) as [-> ->]. cbn. by destruct d.
  - intros j removed. rewrite deleteExpense_settles. fold removed. split; intros Hlen.
    + rewrite Hlen. reflexivity.
    + destruct (Z.eqb_spec (Z.of_nat (length removed)) 0); [lia | reflexivity].
Qed.

Lemma delete_missing_id_not_found_witness :
  serve false (removeExpense 7) stale_db = (stale_db, not_found_response false 7)
  /\ deleteExpense 7 stale_db = (stale_db, Throw (new_Error (not_found_message 7)))
  /\ (forall j,
        let removed := filter (fun r => id r = j) (rows stale_db) in
        (length removed = 0%nat ->
         snd (deleteExpense j stale_db) = Throw (new_Error (not_found_message j)))
        /\ (length removed <> 0%nat -> snd (deleteExpense j stale_db) = Ok true)).
Proof.
  apply (delete_missing_id_not_found false 7 stale_db).
  intros r Hr. apply list_elem_of_singleton in Hr. subst r. cbn. lia.
Defined.

End PipelineProps.

(* ===================================================================== *)
(** * Properties of the store: listing and summary *)
(* ===================================================================== *)

Module StoreProps.
Import JS Database Props.

Lemma filter_none {A} (P : A -> Prop) `{forall x, Decision (P x)} (l : list A) :
  (forall x, x ∈ l -> ~ P x) -> filter P l = [].
Proof.
  induction l as [| y l IH]; intros Hl; [reflexivity |].
  rewrite filter_cons_False by (apply Hl, list_elem_of_here).
  apply IH. intros x Hx. apply Hl. by apply list_elem_of_further.
Qed.

Lemma range_applied_iff options :
  range_applied (whereClause options)
  = truthy (get options "minAmount") && truthy (get options "maxAmount").
Proof.
  unfold whereClause, range_applied.
  destruct (truthy (get options "category")),
           (truthy (get options "minAmount")),
           (truthy (get options "maxAmount")); reflexivity.
Qed.

(** C6, as amended.  The amount range is part of the WHERE clause exactly
    when [minAmount] and [maxAmount] both hold a truthy value, and it is then
    the condition "amount between minAmount and maxAmount"; a bound that is
    missing or the empty string switches the range off.  The listing always
    resolves, with the empty list when no row satisfies the clause. *)
Theorem amount_range_needs_both_bounds sql_compare options d :
  (range_applied (whereClause options) = true
   <-> truthy (get options "minAmount") = true /\ truthy (get options "maxAmount") = true)
  /\ (range_applied (whereClause options) = true ->
      AmountBetween (get options "minAmount") (get options "maxAmount")
      ∈ whereClause options)
  /\ (forall k, k = "minAmount" \/ k = "maxAmount" ->
      get options k = VUndefined \/ get options k = VStr EmptyString ->
      range_applied (whereClause options) = false)
  /\ exists l,
       getAllExpenses sql_compare options d = (d, Ok l)
       /\ ((forall r, r ∈ rows d ->
              forallb (fun c => holds sql_compare c r) (whereClause options) = false) ->
           l = []).
Proof.
  split; [| split; [| split]].
  - rewrite range_applied_iff. apply andb_true_iff.
  - rewrite range_applied_iff. intros [Hlo Hhi]%andb_true_iff.
    unfold whereClause. rewrite Hlo, Hhi. cbn.
    destruct (truthy (get options "category")); cbn.
    + apply list_elem_of_further, list_elem_of_here.
    + apply list_elem_of_here.
  - intros k Hk Hv. rewrite range_applied_iff.
    destruct Hk as [-> | ->], Hv as [-> | ->]; cbn;
      try reflexivity; apply andb_false_r.
  - unfold getAllExpenses, sql_select_all. eexists. split; [reflexivity |].
    intros Hnone. rewrite filter_none; [reflexivity |].
    intros r Hr Hholds. specialize (Hnone r Hr). congruence.
Qed.

(** C6, as stated, fails: both bounds are present in this filter, yet no
    range condition is applied and a row of amount 20 is listed although
    it is not between the bounds under any comparison. *)
Lemma present_but_empty_bound_not_applied :
  present "minAmount" empty_min_filter
  /\ present "maxAmount" empty_min_filter
  /\ range_applied (whereClause empty_min_filter) = false
  /\ getAllExpenses never_comparable empty_min_filter stale_db
     = (stale_db, Ok [sample_row 1 "Misc" 20]).
Proof.
  split; [| split; [| split]].
  - exists (VStr EmptyString). reflexivity.
  - exists (VStr "10"). reflexivity.
  - reflexivity.
  - reflexivity.
Qed.

(** ** Summary *)




End StoreProps.

(* ===================================================================== *)
(** * Properties of the client *)
(* ===================================================================== *)

Module ClientProps.
Import JS Props.

(** ** The future-date check *)

(** On the server a date is compared, as UTC midnight, with the current
    instant: it is rejected exactly when its day is after the current UTC
    day. *)
Lemma server_future_iff_after_utc_day now day :
  date_gt (Some (day * ms_per_day)) (Some now) = true <-> local_day 0 now < day.
Proof.
  unfold date_gt, local_day, ms_per_day. rewrite Z.ltb_lt, Z.add_0_r.
  pose proof (Z.div_mod now 86400000 ltac:(lia)).
  pose proof (Z.mod_pos_bound now 86400000 ltac:(lia)).
  split; intros; nia.
Qed.

(** In the browser the date, as UTC midnight, is compared with local
    midnight: on a clock ahead of UTC, today's date is after it. *)
Lemma client_rejects_local_today tz now :
  0 < tz ->
  date_gt (Some (local_day tz now * ms_per_day)) (Some (local_midnight tz now)) = true.
Proof.
  intros Htz. unfold date_gt, local_day, local_midnight.
  apply Z.ltb_lt. lia.
Qed.

(** C7 fails in the browser.  At 10:00 on 2024-01-15 on a clock at
    UTC+05:30, a form dated 2024-01-15, the local day, is rejected as being
    in the future, while the server accepts the same date at that
    instant. *)
Theorem form_dated_today_rejected_east_of_utc :
  new_Date (ClientUtils.date today_form) = Some (local_day tz_india sample_now * ms_per_day)
  /\ ClientUtils.validateExpenseForm tz_india sample_now today_form
     = Some "Date cannot be in the future"
  /\ Validators.validateExpense sample_now (sample_expense (number_of_Z 10))
     = {| Validators.isValid := true; Validators.errors := [] |}.
Proof. repeat split; vm_compute; reflexivity. Qed.

(** ** Error responses *)

(** A non-2xx response whose body is a JSON document other than [null]
    gives an error that carries the response's status and the code and
    details of the document's [error] member. *)
Lemma json_error_response_is_application_error r doc :
  ClientApi.ok r = false ->
  ClientApi.status r <> 0 ->
  ClientApi.body r = Some doc ->
  doc <> ClientApi.JNull ->
  exists m,
    ClientApi.fetchAPI (ClientApi.Resolved r)
    = inr (ClientApi.Error m (Some (ClientApi.status r))
             (ClientApi.optional_prop "code" (ClientApi.prop "error" doc))
             (ClientApi.optional_prop "details" (ClientApi.prop "error" doc))
             None).
Proof.
  intros Hok Hst Hbody Hdoc.
  unfold ClientApi.fetchAPI, ClientApi.fetchAPI_try, ClientApi.handleErrorResponse.
  rewrite Hok, Hbody. cbn [negb].
  destruct doc; try contradiction; cbn;
    destruct (Z.eqb_spec (ClientApi.status r) 0); try contradiction; eauto.
Qed.

(** C8 fails for a response whose body is not JSON.  The 502 response was
    obtained, yet [fetchAPI] throws the generic network error, the error
    made for the response being kept only as its [originalError]. *)
Theorem non_json_error_response_becomes_network_error :
  ClientApi.ok bad_gateway = false
  /\ ClientApi.handleErrorResponse bad_gateway
     = ClientApi.new_Error (ClientApi.JStr "HTTP 502: Bad Gateway")
  /\ ClientApi.fetchAPI (ClientApi.Resolved bad_gateway)
     = inr (ClientApi.Error (ClientApi.JStr ClientApi.network_error_message)
              None None None
              (Some (ClientApi.new_Error (ClientApi.JStr "HTTP 502: Bad Gateway")))).
Proof. repeat split; vm_compute; reflexivity. Qed.

End ClientProps.

(* ===================================================================== *)
(** * Further properties of the server: sanitizer, handlers, table *)
(* ===================================================================== *)

Module ServerProps.
Import JS Database Controller Props Invariants ValidatorProps.

(** ** Trimming *)

Lemma trimStart_head s c t : trimStart s = String c t -> is_space c = false.
Proof.
  induction s as [| a s IH]; cbn; [discriminate |].
  destruct (is_space a) eqn:Ha; [exact IH |].
  intros [= <- <-]. exact Ha.
Qed.

Lemma trimStart_fixed c t : is_space c = false -> trimStart (String c t) = String c t.
Proof. intros H. cbn. by rewrite H. Qed.

Lemma trimEnd_head c t :
  is_space c = false -> exists t', trimEnd (String c t) = String c t'.
Proof. intros H. cbn. destruct (trimEnd t); rewrite ?H; eauto. Qed.

Lemma trimEnd_idempotent s : trimEnd (trimEnd s) = trimEnd s.
Proof.
  induction s as [| c s IH]; [reflexivity |].
  cbn. destruct (trimEnd s) as [| a t] eqn:Hs.
  - destruct (is_space c) eqn:Hc; [reflexivity |]. cbn. by rewrite Hc.
  - cbn [trimEnd]. cbn [trimEnd] in IH. by rewrite IH.
Qed.

Lemma trim_idempotent s : trim (trim s) = trim s.
Proof.
  unfold trim. destruct (trimStart s) as [| c t] eqn:Hs; [reflexivity |].
  pose proof (trimStart_head _ _ _ Hs) as Hc.
  destruct (trimEnd_head c t Hc) as [t' Ht']. rewrite Ht'.
  rewrite trimStart_fixed by exact Hc. rewrite <- Ht'. apply trimEnd_idempotent.
Qed.

(** ** The sanitizer *)

Lemma get_expense_object e :
  get (expense_object e) "date" = Validators.date e
  /\ get (expense_object e) "amount" = Validators.amount e
  /\ get (expense_object e) "category" = Validators.category e
  /\ get (expense_object e) "description" = Validators.description e.
Proof. repeat split; reflexivity. Qed.

Lemma optional_trim_Ok what v t :
  Validators.optional_trim what v = Ok t ->
  (untrimmable v = false)
  /\ (t = VUndefined \/ exists s, v = VStr s /\ t = VStr (trim s)).
Proof. destruct v; cbn; intros [= <-]; eauto. Qed.

Lemma optional_trim_again what what' v t :
  Validators.optional_trim what v = Ok t -> Validators.optional_trim what' t = Ok t.
Proof.
  intros H. apply optional_trim_Ok in H as [_ [-> | (s & _ & ->)]]; cbn; [reflexivity |].
  by rewrite trim_idempotent.
Qed.

Lemma sanitized_description what v t :
  Validators.optional_trim what v = Ok t ->
  or_else t VNull = VNull
  \/ exists s, or_else t VNull = VStr s /\ is_empty s = false /\ trim s = s.
Proof.
  intros H. apply optional_trim_Ok in H as [_ [-> | (s & _ & ->)]]; [by left |].
  unfold or_else. cbn. destruct (is_empty (trim s)) eqn:He; [by left |].
  right. exists (trim s). cbn. auto using trim_idempotent.
Qed.

(** X1.  Sanitizing a sanitized record changes nothing, except that an amount of
    -0 becomes 0. *)
Theorem sanitizeExpense_idempotent body e :
  Validators.sanitizeExpense body = Ok e ->
  Validators.sanitizeExpense (expense_object e)
  = Ok {| Validators.date := Validators.date e;
          Validators.amount := VNum (parseFloat (Validators.amount e));
          Validators.category := Validators.category e;
          Validators.description := Validators.description e |}
  /\ (parseFloat (get body "amount") <> S754_zero true ->
      Validators.sanitizeExpense (expense_object e) = Ok e).
Proof.
  intros Hs.
  destruct (PipelineProps.sanitizeExpense_Ok _ _ Hs) as (vd & vc & vt & Hd & Hc & Ht & ->).
  assert (Hfirst :
    Validators.sanitizeExpense
      (expense_object
         {| Validators.date := vd;
            Validators.amount := VNum (parseFloat (get body "amount"));
            Validators.category := vc;
            Validators.description := or_else vt VNull |})
    = Ok {| Validators.date := vd;
            Validators.amount := VNum (parseFloat (VNum (parseFloat (get body "amount"))));
            Validators.category := vc;
            Validators.description := or_else vt VNull |}).
  { unfold Validators.sanitizeExpense, mbind, result_bind.
    destruct (get_expense_object
                {| Validators.date := vd;
                   Validators.amount := VNum (parseFloat (get body "amount"));
                   Validators.category := vc;
                   Validators.description := or_else vt VNull |})
      as (-> & -> & -> & ->). cbn [Validators.date Validators.amount
                                   Validators.category Validators.description].
    rewrite (optional_trim_again _ "expense.date" _ _ Hd).
    rewrite (optional_trim_again _ "expense.category" _ _ Hc).
    destruct (sanitized_description _ _ _ Ht) as [-> | (s & -> & He & Htr)].
    - reflexivity.
    - cbn. rewrite Htr. unfold or_else. cbn. by rewrite He. }
  split; [exact Hfirst |].
  intros Hz. rewrite Hfirst. cbn [Validators.amount]. do 2 f_equal.
  cbn [parseFloat]. destruct (parseFloat (get body "amount")) as [[] | | |]; cbn;
    try reflexivity. contradiction.
Qed.

Lemma sanitizeExpense_idempotent_witness :
  Validators.sanitizeExpense (expense_object (sample_expense (number_of_Z 12)))
  = Ok {| Validators.date := VStr "2024-01-15";
          Validators.amount := VNum (parseFloat (VNum (number_of_Z 12)));
          Validators.category := VStr "Food";
          Validators.description := VNull |}
  /\ (parseFloat (get (sample_body (VStr "12abc")) "amount") <> S754_zero true ->
      Validators.sanitizeExpense (expense_object (sample_expense (number_of_Z 12)))
      = Ok (sample_expense (number_of_Z 12))).
Proof.
  apply (sanitizeExpense_idempotent (sample_body (VStr "12abc"))
           (sample_expense (number_of_Z 12))).
  vm_compute. reflexivity.
Defined.

Lemma errorHandler_plain_error development msg :
  is_empty msg = false ->
  errorHandler development (new_Error msg) = internal_error development msg.
Proof. intros H. unfold errorHandler, internal_error. cbn. by rewrite H. Qed.

(** What the sanitizer throws: an error without status or code, whose message
    is not empty. *)
Lemma sanitizeExpense_Throw body e :
  Validators.sanitizeExpense body = Throw e ->
  exists msg, e = new_Error msg /\ is_empty msg = false.
Proof.
  unfold Validators.sanitizeExpense, mbind, result_bind.
  destruct (get body "date"), (get body "category"), (get body "description");
    cbn; intros [= <-]; eauto.
Qed.

Lemma sanitizeExpense_throws_iff body :
  (exists e, Validators.sanitizeExpense body = Throw e)
  <-> untrimmable (get body "date") || untrimmable (get body "category")
      || untrimmable (get body "description") = true.
Proof.
  unfold Validators.sanitizeExpense, mbind, result_bind.
  destruct (get body "date"), (get body "category"), (get body "description");
    cbn; split; try discriminate; try (intros [? [=]]); eauto.
Qed.



(** X3.  The update route does the same when the payload puts such a value in one
    of the three fields of an existing row. *)
Theorem untrimmable_patch_answers_500 development now i patch d existing :
  getExpenseById i d = (d, Ok (Some existing)) ->
  untrimmable (get patch "date") || untrimmable (get patch "category")
  || untrimmable (get patch "description") = true ->
  exists msg,
    serve development (updateExpenseData now i patch) d = (d, internal_error development msg).
Proof.
  intros Hget Hu.
  assert (Hm : untrimmable (get (patch ∪ row_object existing) "date")
               || untrimmable (get (patch ∪ row_object existing) "category")
               || untrimmable (get (patch ∪ row_object existing) "description") = true).
  { rewrite !PipelineProps.merge_get. unfold get in Hu.
    destruct (patch !! "date") as [[] |], (patch !! "category") as [[] |],
             (patch !! "description") as [[] |]; cbn in Hu |- *;
      try discriminate; try reflexivity; rewrite ?orb_true_r; reflexivity. }
  apply sanitizeExpense_throws_iff in Hm as [e He].
  destruct (sanitizeExpense_Throw _ _ He) as (msg & -> & Hmsg).
  exists msg. unfold serve, updateExpenseData, bind. rewrite Hget. cbv beta iota.
  unfold lift. rewrite He. by rewrite errorHandler_plain_error.
Qed.

Lemma untrimmable_patch_answers_500_witness :
  exists msg,
    serve false (updateExpenseData sample_now 1 (<["description" := VBool true]> ∅)) stale_db
    = (stale_db, internal_error false msg).
Proof.
  apply (untrimmable_patch_answers_500 false sample_now 1 (<["description" := VBool true]> ∅)
           stale_db (sample_row 1 "Misc" 20)).
  - vm_compute. reflexivity.
  - vm_compute. reflexivity.
Defined.

(** ** Messages the pipeline cannot produce *)

Lemma sanitized_description_cases body e :
  Validators.sanitizeExpense body = Ok e ->
  Validators.description e = VNull
  \/ exists s, Validators.description e = VStr s /\ is_empty s = false /\ trim s = s.
Proof.
  intros Hs.
  destruct (PipelineProps.sanitizeExpense_Ok _ _ Hs) as (vd & vc & vt & _ & _ & Ht & ->).
  cbn. eapply sanitized_description; exact Ht.
Qed.

(** X4.  On a record that went through the sanitizer the validator never reports
    "Amount is required" nor "Description must be text": a missing, null or
    empty amount has become NaN and is reported as "Amount must be a
    number". *)
Theorem sanitized_record_never_reports_required_amount now body e :
  Validators.sanitizeExpense body = Ok e ->
  (forall m, m ∈ Validators.errors (Validators.validateExpense now e) ->
             message m <> "Amount is required" /\ message m <> "Description must be text")
  /\ (get body "amount" = VUndefined \/ get body "amount" = VNull
      \/ get body "amount" = VStr EmptyString ->
      {| field := "amount"; message := "Amount must be a number" |}
      ∈ Validators.errors (Validators.validateExpense now e)).
Proof.
  intros Hs. pose proof (PipelineProps.sanitizeExpense_amount _ _ Hs) as Ha.
  rewrite validateExpense_errors, Ha. split.
  - intros m Hm.
    assert (Hdesc : forall m', m' ∈ description_errors (Validators.description e) ->
                               message m' = "Description too long (max 255 chars)").
    { intros m'. unfold description_errors.
      destruct (sanitized_description_cases _ _ Hs) as [-> | (s & -> & _ & _)]; cbn.
      - intros H. by apply elem_of_nil in H.
      - rewrite andb_false_r.
        destruct (_ && _); [| intros H; by apply elem_of_nil in H].
        intros H. apply list_elem_of_singleton in H. by subst m'. }
    apply elem_of_app in Hm as [Hm | Hm].
    { unfold date_errors in Hm.
      repeat match type of Hm with context [if ?b then _ else _] => destruct b end;
        try (by apply elem_of_nil in Hm);
        apply list_elem_of_singleton in Hm; subst m; cbn; split; discriminate. }
    apply elem_of_app in Hm as [Hm | Hm].
    { unfold amount_errors in Hm.
      cbn [Validators.is_undefined Validators.is_null Validators.is_empty_string orb] in Hm.
      repeat match type of Hm with context [if ?b then _ else _] => destruct b end;
        try (by apply elem_of_nil in Hm);
        apply list_elem_of_singleton in Hm; subst m; cbn; split; discriminate. }
    apply elem_of_app in Hm as [Hm | Hm].
    { unfold category_errors in Hm.
      repeat match type of Hm with context [if ?b then _ else _] => destruct b end;
        try (by apply elem_of_nil in Hm);
        apply list_elem_of_singleton in Hm; subst m; cbn; split; discriminate. }
    rewrite (Hdesc m Hm). split; discriminate.
  - intros Hmissing.
    assert (Hnan : parseFloat (get body "amount") = NaN)
      by (destruct Hmissing as [-> | [-> | ->]]; reflexivity).
    rewrite Hnan. apply elem_of_app; right. apply elem_of_app; left.
    apply list_elem_of_here.
Qed.

Lemma sanitized_record_never_reports_required_amount_witness :
  (forall m, m ∈ Validators.errors
                   (Validators.validateExpense sample_now (sample_expense NaN)) ->
             message m <> "Amount is required" /\ message m <> "Description must be text")
  /\ (get (sample_body VNull) "amount" = VUndefined
      \/ get (sample_body VNull) "amount" = VNull
      \/ get (sample_body VNull) "amount" = VStr EmptyString ->
      {| field := "amount"; message := "Amount must be a number" |}
      ∈ Validators.errors (Validators.validateExpense sample_now (sample_expense NaN))).
Proof.
  apply (sanitized_record_never_reports_required_amount sample_now (sample_body VNull)
           (sample_expense NaN)).
  vm_compute. reflexivity.
Defined.

(** ** What a valid record is *)

Lemma SFcompare_antisym x y : SFcompare y x = option_map CompOpp (SFcompare x y).
Proof.
  destruct x as [sx | sx | | sx mx ex], y as [sy | sy | | sy my ey]; cbn;
    try reflexivity; try (destruct sx; reflexivity); try (destruct sy; reflexivity);
    try (destruct sx, sy; reflexivity).
  destruct sx, sy; cbn; try reflexivity;
    rewrite (Z.compare_antisym ex ey); destruct (ex ?= ey); cbn; try reflexivity;
    rewrite (Pos.compare_cont_antisym mx my Eq); reflexivity.
Qed.

Lemma SFcompare_Some x y :
  is_nan x = false -> is_nan y = false -> exists k, SFcompare x y = Some k.
Proof. destruct x, y; cbn; intros; try discriminate; eauto. Qed.

(** The three amount checks of the validator, read as bounds. *)
Lemma amount_in_range_iff x c :
  is_nan c = false ->
  (is_nan x = false /\ num_le x zero = false /\ num_gt x c = false)
  <-> (num_lt zero x = true /\ num_le x c = true).
Proof.
  intros Hc. unfold num_le, num_gt, num_lt, SFltb, SFleb.
  rewrite (SFcompare_antisym x zero), (SFcompare_antisym x c).
  destruct (is_nan x) eqn:Hn.
  - destruct x; try discriminate Hn. cbn. intuition discriminate.
  - destruct (SFcompare_Some x zero Hn eq_refl) as [k0 ->].
    destruct (SFcompare_Some x c Hn Hc) as [k ->].
    destruct k0, k; cbn; intuition discriminate.
Qed.

Lemma amount_errors_nil_iff x :
  amount_errors (VNum x) = []
  <-> is_nan x = false /\ num_le x zero = false /\ num_gt x (number_of_Z 999999) = false.
Proof.
  unfold amount_errors.
  rewrite PipelineProps.parseFloat_number_le, PipelineProps.parseFloat_number_gt.
  change (isNaN (VNum x)) with (is_nan x).
  cbn [Validators.is_undefined Validators.is_null Validators.is_empty_string orb].
  destruct (is_nan x), (num_le x zero), (num_gt x (number_of_Z 999999));
    intuition discriminate.
Qed.

Lemma isValidDate_string v :
  Validators.isValidDate v = true -> exists s, v = VStr s /\ is_empty s = false.
Proof.
  destruct v as [| | | | s |]; cbn; try discriminate.
  destruct s; [discriminate | eauto].
Qed.

Lemma date_errors_nil_iff now v :
  date_errors now v = []
  <-> Validators.isValidDate v = true
      /\ date_gt (Validators.Date_of v) (Some now) = false.
Proof.
  unfold date_errors. split.
  - destruct (negb (truthy v)); [discriminate |].
    destruct (Validators.isValidDate v); [| discriminate]. cbn.
    destruct (date_gt _ _); [discriminate | auto].
  - intros [Hv Hf]. destruct (isValidDate_string _ Hv) as (s & -> & He).
    cbn [truthy]. rewrite He, Hv, Hf. reflexivity.
Qed.

Lemma category_errors_nil_iff v :
  category_errors v = [] <-> Validators.includes Validators.VALID_CATEGORIES v = true.
Proof.
  unfold category_errors. split.
  - destruct (negb (truthy v)); [discriminate |].
    destruct (Validators.includes _ v); [reflexivity | discriminate].
  - intros Hi. rewrite Hi. destruct v as [| | | | s |]; try discriminate.
    destruct s; [discriminate | reflexivity].
Qed.

Lemma description_errors_text s :
  is_empty s = false ->
  description_errors (VStr s) = []
  <-> Z.of_nat (String.length s) <= 255.
Proof.
  intros He. unfold description_errors, truthy, Validators.is_string, Validators.length_of.
  rewrite He. cbn [negb andb].
  destruct (Z.ltb_spec 255 (Z.of_nat (String.length s))); split; intros;
    try discriminate; try reflexivity; lia.
Qed.

Lemma includes_text s :
  Validators.includes Validators.VALID_CATEGORIES (VStr s)
  = bool_decide (s ∈ Validators.VALID_CATEGORIES).
Proof. reflexivity. Qed.

Lemma valid_iff_row_ok now ts body e d :
  Validators.sanitizeExpense body = Ok e ->
  Validators.isValid (Validators.validateExpense now e) = true
  <-> row_ok (inserted_row ts e d) = true
      /\ date_gt (Validators.Date_of (Validators.date e)) (Some now) = false.
Proof.
  intros Hs. rewrite validateExpense_isValid, validateExpense_errors.
  pose proof (PipelineProps.sanitizeExpense_amount _ _ Hs) as Ha.
  pose proof (sanitized_description_cases _ _ Hs) as Hdesc.
  destruct (PipelineProps.sanitizeExpense_Ok _ _ Hs) as (vd & vc & vt & Hd & Hc & _ & He).
  assert (Hvd : Validators.date e = vd) by (subst e; reflexivity).
  assert (Hvc : Validators.category e = vc) by (subst e; reflexivity).
  clear He. unfold row_ok, inserted_row. cbn [date amount category description].
  rewrite Ha in *. set (x := parseFloat (get body "amount")) in *.
  split.
  - intros H.
    apply app_eq_nil in H as [H1 H]. apply app_eq_nil in H as [H2 H].
    apply app_eq_nil in H as [H3 H4].
    apply date_errors_nil_iff in H1 as [H1 H1'].
    apply amount_errors_nil_iff in H2.
    pose proof (proj1 (amount_in_range_iff x (number_of_Z 999999) eq_refl) H2) as [Hlo Hhi].
    destruct H2 as (Hn & _ & _).
    apply category_errors_nil_iff in H3.
    split; [| exact H1'].
    destruct (isValidDate_string _ H1) as (sd & Hsd & _). rewrite Hsd in *.
    destruct (Validators.category e) as [| | | | sc |]; try discriminate H3.
    cbn [bind_param date_ok amount_ok category_ok]. rewrite Hn. cbn [amount_ok].
    rewrite H1, Hlo, Hhi. rewrite includes_text in H3. rewrite H3. cbn [andb].
    destruct Hdesc as [-> | (s & Hds & Hne & Htr)]; [reflexivity |].
    rewrite Hds in *.
    unfold or_else. cbn [truthy]. rewrite Hne. cbn [negb bind_param description_ok].
    rewrite Hne, Htr, String.eqb_refl. cbn [negb andb].
    apply Z.leb_le. exact (proj1 (description_errors_text s Hne) H4).
  - intros [H Hfut].
    apply andb_true_iff in H as [H Hdo]. apply andb_true_iff in H as [H Hco].
    apply andb_true_iff in H as [Hda Hao].
    assert (H1 : date_errors now (Validators.date e) = []).
    { apply date_errors_nil_iff. split; [| exact Hfut].
      rewrite Hvd in *.
      apply optional_trim_Ok in Hd as [_ [-> | (sd & _ & ->)]];
        [discriminate Hda | exact Hda]. }
    assert (H2 : amount_errors (VNum x) = []).
    { apply amount_errors_nil_iff. apply amount_in_range_iff; [reflexivity |].
      cbn [bind_param] in Hao. destruct (is_nan x); [discriminate |].
      cbn [amount_ok] in Hao. by apply andb_true_iff in Hao. }
    assert (H3 : category_errors (Validators.category e) = []).
    { apply category_errors_nil_iff. rewrite Hvc in *.
      apply optional_trim_Ok in Hc as [_ [-> | (sc & _ & ->)]];
        [discriminate Hco | exact Hco]. }
    assert (H4 : description_errors (Validators.description e) = []).
    { destruct Hdesc as [-> | (s & Hds & Hne & Htr)]; [reflexivity |].
      rewrite Hds in *.
      unfold or_else in Hdo. cbn [truthy] in Hdo. rewrite Hne in Hdo.
      cbn [negb bind_param description_ok] in Hdo.
      apply andb_true_iff in Hdo as [_ Hlen]. apply Z.leb_le in Hlen.
      exact (proj2 (description_errors_text s Hne) Hlen). }
    by rewrite H1, H2, H3, H4.
Qed.

(** X5.  A sanitized record passes the validator exactly when the row it would be
    stored as meets the field rules (a well-formed date, an amount above 0
    and at most 999999, one of the seven categories, no description or one of
    at most 255 characters) and its date is not after the current instant. *)
Theorem sanitized_record_valid_iff now ts body e d :
  Validators.sanitizeExpense body = Ok e ->
  Validators.isValid (Validators.validateExpense now e) = true
  <-> row_ok (inserted_row ts e d) = true
      /\ date_gt (Validators.Date_of (Validators.date e)) (Some now) = false.
Proof. apply valid_iff_row_ok. Qed.

Lemma sanitized_record_valid_iff_witness :
  Validators.isValid (Validators.validateExpense sample_now (sample_expense (number_of_Z 12)))
  = true
  <-> row_ok (inserted_row sample_ts (sample_expense (number_of_Z 12)) empty_db) = true
      /\ date_gt (Validators.Date_of (Validators.date (sample_expense (number_of_Z 12))))
           (Some sample_now) = false.
Proof.
  apply (sanitized_record_valid_iff sample_now sample_ts (sample_body (VStr "12abc"))
           (sample_expense (number_of_Z 12)) empty_db).
  vm_compute. reflexivity.
Defined.

(** ** The table under the handlers *)

Lemma row_ok_not_null r : row_ok r = true -> not_null_violation r = None.
Proof.
  unfold row_ok, not_null_violation. intros H.
  apply andb_true_iff in H as [H _]. apply andb_true_iff in H as [H Hc].
  apply andb_true_iff in H as [Hd Ha].
  destruct (date r); try discriminate Hd.
  destruct (amount r); try discriminate Ha.
  destruct (category r); try discriminate Hc. reflexivity.
Qed.

Lemma updated_row_ok now body e r :
  Validators.sanitizeExpense body = Ok e ->
  Validators.isValid (Validators.validateExpense now e) = true ->
  row_ok (updated_row e r) = true.
Proof.
  intros Hs Hv.
  pose proof (proj1 (proj1 (valid_iff_row_ok now EmptyString body e empty_db Hs) Hv)) as Hok.
  unfold row_ok, updated_row, inserted_row in *.
  cbn [date amount category description] in *.
  destruct (sanitized_description_cases _ _ Hs) as [Hd | (s & Hd & Hne & _)];
    rewrite Hd in *; [exact Hok |].
  unfold or_else in Hok. cbn [truthy] in Hok. rewrite Hne in Hok. exact Hok.
Qed.

Lemma find_none_all {A} (p : A -> bool) (l : list A) :
  (forall x, x ∈ l -> p x = false) -> find p l = None.
Proof.
  induction l as [| y l IH]; intros H; cbn; [reflexivity |].
  rewrite (H y) by apply list_elem_of_here.
  apply IH. intros x Hx. apply H. by apply list_elem_of_further.
Qed.

Lemma find_map_id (f : row -> row) (l : list row) i :
  (forall r, id (f r) = id r) ->
  find (fun r => id r =? i) (map (fun r => if id r =? i then f r else r) l)
  = option_map f (find (fun r => id r =? i) l).
Proof.
  intros Hf. induction l as [| y l IH]; cbn; [reflexivity |].
  destruct (id y =? i) eqn:Hy.
  - rewrite Hf, Hy. reflexivity.
  - rewrite Hy. exact IH.
Qed.

Lemma getExpenseById_find i d :
  getExpenseById i d = (d, Ok (find (fun r => id r =? i) (rows d))).
Proof. reflexivity. Qed.

Lemma updateFields_sanitized e :
  updateFields (expense_object e)
  = [ ("date", bind_param (Validators.date e));
      ("amount", bind_param (Validators.amount e));
      ("category", bind_param (Validators.category e));
      ("description", bind_param (Validators.description e)) ].
Proof. reflexivity. Qed.

(** What the create route does with a record that validates. *)
Lemma createExpense_valid development now ts body d e :
  Validators.sanitizeExpense body = Ok e ->
  Validators.isValid (Validators.validateExpense now e) = true ->
  serve development (createExpense now ts body) d
  = ({| rows := rows d ++ [inserted_row ts e d]; seq := next_id d |},
     {| status := 201;
        body := ExpenseData (Some (inserted_row ts e d)) "Expense created successfully" |}).
Proof.
  intros Hs Hv.
  pose proof (proj1 (proj1 (valid_iff_row_ok now ts body e d Hs) Hv)) as Hok.
  apply row_ok_not_null in Hok.
  unfold serve, createExpense, bind, lift. rewrite Hs. cbv beta iota. rewrite Hv.
  cbn [negb ret]. unfold addExpense, sql_insert. fold (inserted_row ts e d).
  rewrite Hok. change (id (inserted_row ts e d)) with (next_id d).
  rewrite getExpenseById_find. cbn [rows].
  assert (Hf : find (fun r => id r =? next_id d) (rows d ++ [inserted_row ts e d])
               = Some (inserted_row ts e d)).
  { apply PipelineProps.find_app_last; [| reflexivity].
    intros r' Hr'. apply PipelineProps.next_id_fresh in Hr'. lia. }
  unfold ret. rewrite Hf. reflexivity.
Qed.

(** What the update route does with a merged record that validates. *)
Lemma updateExpenseData_valid development now i body d existing e :
  getExpenseById i d = (d, Ok (Some existing)) ->
  Validators.sanitizeExpense (body ∪ row_object existing) = Ok e ->
  Validators.isValid (Validators.validateExpense now e) = true ->
  serve development (updateExpenseData now i body) d
  = ({| rows := map (fun r => if id r =? i then updated_row e r else r) (rows d);
        seq := seq d |},
     json (ExpenseData (Some (updated_row e existing)) "Expense updated successfully")).
Proof.
  intros Hget Hs Hv.
  assert (Hfind : find (fun r => id r =? i) (rows d) = Some existing).
  { rewrite getExpenseById_find in Hget. congruence. }
  unfold serve, updateExpenseData, bind. rewrite Hget. cbv beta iota.
  unfold lift. rewrite Hs. cbv beta iota. rewrite Hv. cbn [negb ret].
  unfold updateExpense. rewrite updateFields_sanitized. cbn [length Nat.eqb].
  unfold sql_update.
  assert (Hmap : map (fun r => if id r =? i
                               then fold_left assign
                                      [ ("date", bind_param (Validators.date e));
                                        ("amount", bind_param (Validators.amount e));
                                        ("category", bind_param (Validators.category e));
                                        ("description",
                                         bind_param (Validators.description e)) ] r
                               else r) (rows d)
                 = map (fun r => if id r =? i then updated_row e r else r) (rows d)).
  { apply map_ext. intros r. destruct (id r =? i); reflexivity. }
  rewrite Hmap. rewrite find_none_all.
  - rewrite getExpenseById_find. cbn [rows].
    rewrite (find_map_id (updated_row e)) by reflexivity. rewrite Hfind. reflexivity.
  - intros r Hr. change (r ∈ (fun r => if id r =? i then updated_row e r else r) <$> rows d) in Hr.
    apply list_elem_of_fmap in Hr as (r0 & -> & _).
    destruct (id r0 =? i) eqn:H0.
    + cbn [id updated_row]. rewrite H0.
      rewrite (row_ok_not_null _ (updated_row_ok now _ e r0 Hs Hv)).
      reflexivity.
    + rewrite H0. reflexivity.
Qed.

(** The four things a request can do to the table: nothing, append one valid
    row under the next id, rewrite the fields of the rows of one id with
    valid ones, or remove the rows of one id. *)
Lemma handle_steps sql_compare sum_real round2 development req d :
  let d' := fst (Routes.handle sql_compare sum_real round2 development req d) in
  d' = d
  \/ (exists r, row_ok r = true /\ id r = next_id d
                /\ d' = {| rows := rows d ++ [r]; seq := next_id d |})
  \/ (exists i f,
        (forall r, id (f r) = id r /\ created_at (f r) = created_at r
                   /\ row_ok (f r) = true)
        /\ d' = {| rows := map (fun r => if id r =? i then f r else r) (rows d);
                   seq := seq d |})
  \/ (exists i, d' = {| rows := filter (fun r => id r ≠ i) (rows d); seq := seq d |}).
Proof.
  destruct req as [query | | | now ts body | now i body | i];
    unfold Routes.handle, Routes.router.
  - left. reflexivity.
  - left. reflexivity.
  - left. reflexivity.
  - destruct (Validators.sanitizeExpense body) as [e | err] eqn:Hs.
    + destruct (Validators.isValid (Validators.validateExpense now e)) eqn:Hv.
      * rewrite (createExpense_valid _ _ _ _ _ _ Hs Hv). right; left.
        exists (inserted_row ts e d). split; [| split; reflexivity].
        exact (proj1 (proj1 (valid_iff_row_ok now ts body e d Hs) Hv)).
      * rewrite (PipelineProps.createExpense_invalid _ _ _ _ _ _ Hs Hv). by left.
    + left. unfold serve, createExpense, bind, lift. by rewrite Hs.
  - destruct (find (fun r => id r =? i) (rows d)) as [existing |] eqn:Hfind.
    + assert (Hget : getExpenseById i d = (d, Ok (Some existing)))
        by (rewrite getExpenseById_find; congruence).
      destruct (Validators.sanitizeExpense (body ∪ row_object existing)) as [e | err] eqn:Hs.
      * destruct (Validators.isValid (Validators.validateExpense now e)) eqn:Hv.
        -- rewrite (updateExpenseData_valid _ _ _ _ _ _ _ Hget Hs Hv).
           right; right; left. exists i, (updated_row e). split; [| reflexivity].
           intros r. split; [reflexivity |]. split; [reflexivity |].
           exact (updated_row_ok now _ e r Hs Hv).
        -- left. unfold serve, updateExpenseData, bind. rewrite Hget. cbv beta iota.
           unfold lift. rewrite Hs. cbv beta iota. by rewrite Hv.
      * left. unfold serve, updateExpenseData, bind. rewrite Hget. cbv beta iota.
        unfold lift. by rewrite Hs.
    + left. unfold serve, removeExpense, updateExpenseData, bind.
      rewrite getExpenseById_find, Hfind. reflexivity.
  - destruct (find (fun r => id r =? i) (rows d)) as [existing |] eqn:Hfind.
    + right; right; right. exists i.
      unfold serve, removeExpense, bind. rewrite getExpenseById_find, Hfind.
      cbv beta iota. unfold deleteExpense, sql_delete.
      destruct (_ =? 0); reflexivity.
    + left. unfold serve, removeExpense, bind.
      rewrite getExpenseById_find, Hfind. reflexivity.
Qed.

Lemma next_id_above_seq d : seq d < next_id d.
Proof.
  unfold next_id. induction (map id (rows d)) as [| x l IH]; cbn; lia.
Qed.

Lemma ids_of_rewritten (f : row -> row) i (l : list row) :
  (forall r, id (f r) = id r) ->
  map id (map (fun r => if id r =? i then f r else r) l) = map id l.
Proof.
  intros Hf. induction l as [| y l IH]; cbn; [reflexivity |].
  rewrite IH. destruct (id y =? i); by rewrite ?Hf.
Qed.

Lemma created_of_rewritten (f : row -> row) i (l : list row) :
  (forall r, created_at (f r) = created_at r) ->
  map created_at (map (fun r => if id r =? i then f r else r) l) = map created_at l.
Proof.
  intros Hf. induction l as [| y l IH]; cbn; [reflexivity |].
  rewrite IH. destruct (id y =? i); by rewrite ?Hf.
Qed.

(** How one request moves the ids: the largest id handed out never goes
    down, distinct ids stay distinct, and every row afterwards carries the id
    of a row before or an id above every id handed out before. *)
Lemma handle_ids sql_compare sum_real round2 development req d :
  let d' := fst (Routes.handle sql_compare sum_real round2 development req d) in
  seq d <= seq d'
  /\ (ids_wf d -> ids_wf d')
  /\ (forall r', r' ∈ rows d' ->
        (exists r, r ∈ rows d /\ id r = id r' /\ created_at r = created_at r')
        \/ seq d < id r').
Proof.
  pose proof (next_id_above_seq d) as Hnext.
  destruct (handle_steps sql_compare sum_real round2 development req d)
    as [-> | [(r & _ & Hid & ->) | [(i & f & Hf & ->) | (i & ->)]]]; cbn [rows seq].
  - split; [lia |]. split; [auto |]. intros r' Hr'. left. eauto.
  - split; [lia |]. split.
    + intros [Hnd Hle]. split; cbn [rows seq].
      * rewrite map_app. apply NoDup_app. split; [exact Hnd |]. split.
        -- intros x Hx Hx'. cbn in Hx'. apply list_elem_of_singleton in Hx'. subst x.
           change (id r ∈ id <$> rows d) in Hx.
           apply list_elem_of_fmap in Hx as (r0 & Heq & Hr0).
           apply PipelineProps.next_id_fresh in Hr0. lia.
        -- cbn. apply NoDup_singleton.
      * intros r0 Hr0. apply elem_of_app in Hr0 as [Hr0 | Hr0].
        -- apply PipelineProps.next_id_fresh in Hr0. lia.
        -- apply list_elem_of_singleton in Hr0. subst r0. lia.
    + intros r' Hr'. apply elem_of_app in Hr' as [Hr' | Hr'].
      * left. eauto.
      * apply list_elem_of_singleton in Hr'. subst r'. right. lia.
  - split; [lia |].
    assert (Hrows : forall r', r' ∈ map (fun r => if id r =? i then f r else r) (rows d) ->
                    exists r, r ∈ rows d /\ id r = id r' /\ created_at r = created_at r').
    { intros r' Hr'.
      change (r' ∈ (fun r => if id r =? i then f r else r) <$> rows d) in Hr'.
      apply list_elem_of_fmap in Hr' as (r0 & -> & Hr0). exists r0.
      destruct (Hf r0) as (H1 & H2 & _). destruct (id r0 =? i); auto. }
    split.
    + intros [Hnd Hle]. split; cbn [rows seq].
      * rewrite ids_of_rewritten; [exact Hnd | intros r; apply Hf].
      * intros r' Hr'. destruct (Hrows r' Hr') as (r0 & Hr0 & Heq & _).
        rewrite <- Heq. by apply Hle.
    + intros r' Hr'. left. by apply Hrows.
  - split; [lia |].
    assert (Hsub : forall r', r' ∈ filter (fun r => id r ≠ i) (rows d) -> r' ∈ rows d).
    { intros r' Hr'. by apply list_elem_of_filter in Hr' as [_ Hr']. }
    split.
    + intros [Hnd Hle]. split; cbn [rows seq].
      * eapply sublist_NoDup; [exact Hnd |].
        change (id <$> filter (fun r => id r ≠ i) (rows d) `sublist_of` id <$> rows d).
        apply fmap_sublist, sublist_filter.
      * intros r' Hr'. apply Hle. by apply Hsub.
    + intros r' Hr'. left. exists r'. auto.
Qed.

Lemma run_cons sql_compare sum_real round2 development req reqs d :
  Routes.run sql_compare sum_real round2 development (req :: reqs) d
  = Routes.run sql_compare sum_real round2 development reqs
      (fst (Routes.handle sql_compare sum_real round2 development req d)).
Proof. reflexivity. Qed.

Lemma run_ids sql_compare sum_real round2 development reqs d :
  let d' := Routes.run sql_compare sum_real round2 development reqs d in
  seq d <= seq d'
  /\ (ids_wf d -> ids_wf d')
  /\ (forall r', r' ∈ rows d' ->
        (exists r, r ∈ rows d /\ id r = id r' /\ created_at r = created_at r')
        \/ seq d < id r').
Proof.
  revert d. induction reqs as [| req reqs IH]; intros d.
  - cbn. split; [lia |]. split; [auto |]. intros r' Hr'. left. eauto.
  - rewrite run_cons.
    destruct (handle_ids sql_compare sum_real round2 development req d) as (H1 & H2 & H3).
    destruct (IH (fst (Routes.handle sql_compare sum_real round2 development req d)))
      as (I1 & I2 & I3).
    cbv zeta in *. split; [lia |]. split; [auto |].
    intros r' Hr'. destruct (I3 r' Hr') as [(r1 & Hr1 & Hid & Hts) | Hnew]; [| right; lia].
    destruct (H3 r1 Hr1) as [(r & Hr & Hid' & Hts') | Hnew]; [| right; lia].
    left. exists r. split; [exact Hr |]. split; congruence.
Qed.

Lemma same_id_same_row (l : list row) r r' :
  NoDup (map id l) -> r ∈ l -> r' ∈ l -> id r = id r' -> r = r'.
Proof.
  induction l as [| y l IH]; intros Hnd Hr Hr' Hid.
  - by apply elem_of_nil in Hr.
  - cbn in Hnd. apply NoDup_cons in Hnd as [Hy Hnd].
    apply elem_of_cons in Hr as [-> | Hr]; apply elem_of_cons in Hr' as [-> | Hr'].
    + reflexivity.
    + exfalso. apply Hy. rewrite Hid.
      change (id r' ∈ id <$> l). by apply list_elem_of_fmap_2.
    + exfalso. apply Hy. rewrite <- Hid.
      change (id r ∈ id <$> l). by apply list_elem_of_fmap_2.
    + by apply IH.
Qed.

(** X6.  Ids are never reused: an id that has been handed out and whose row is
    gone does not come back, whatever requests follow, and the ids in the
    table stay pairwise distinct. *)
Theorem ids_never_reused sql_compare sum_real round2 development reqs d i :
  ids_wf d ->
  i <= seq d ->
  (forall r, r ∈ rows d -> id r <> i) ->
  ids_wf (Routes.run sql_compare sum_real round2 development reqs d)
  /\ forall r, r ∈ rows (Routes.run sql_compare sum_real round2 development reqs d) ->
               id r <> i.
Proof.
  intros Hwf Hi Habs.
  destruct (run_ids sql_compare sum_real round2 development reqs d) as (_ & H2 & H3).
  split; [by apply H2 |].
  intros r' Hr' Heq. destruct (H3 r' Hr') as [(r & Hr & Hid & _) | Hnew]; [| lia].
  apply (Habs r Hr). congruence.
Qed.

Lemma ids_never_reused_witness :
  ids_wf (Routes.run never_comparable (fun _ => zero) (fun x => x) false
            [Routes.DeleteExpense 1;
             Routes.PostExpense sample_now sample_ts (sample_body (VStr "42.50"))]
            {| rows := [sample_row 2 "Food" 12]; seq := 2 |})
  /\ forall r, r ∈ rows (Routes.run never_comparable (fun _ => zero) (fun x => x) false
                          [Routes.DeleteExpense 1;
                           Routes.PostExpense sample_now sample_ts
                             (sample_body (VStr "42.50"))]
                          {| rows := [sample_row 2 "Food" 12]; seq := 2 |}) ->
               id r <> 1.
Proof.
  apply (ids_never_reused never_comparable (fun _ => zero) (fun x => x) false
           [Routes.DeleteExpense 1;
            Routes.PostExpense sample_now sample_ts (sample_body (VStr "42.50"))]
           {| rows := [sample_row 2 "Food" 12]; seq := 2 |} 1).
  - split; cbn.
    + apply NoDup_singleton.
    + intros r Hr. apply list_elem_of_singleton in Hr. subst r. cbn. lia.
  - cbn. lia.
  - intros r Hr. cbn in Hr. apply list_elem_of_singleton in Hr. subst r. cbn. lia.
Defined.

(** X7.  A row keeps its id and its creation time: whatever requests are served,
    a row found afterwards under the id of a row of the table has that row's
    [created_at]. *)
Theorem created_at_never_changes sql_compare sum_real round2 development reqs d r r' :
  ids_wf d ->
  r ∈ rows d ->
  r' ∈ rows (Routes.run sql_compare sum_real round2 development reqs d) ->
  id r' = id r ->
  created_at r' = created_at r.
Proof.
  intros [Hnd Hle] Hr Hr' Hid.
  destruct (run_ids sql_compare sum_real round2 development reqs d) as (_ & _ & H3).
  destruct (H3 r' Hr') as [(r0 & Hr0 & Hid0 & Hts) | Hnew].
  - rewrite <- Hts. f_equal. apply (same_id_same_row (rows d)); auto. congruence.
  - specialize (Hle r Hr). lia.
Qed.

Lemma created_at_never_changes_witness :
  created_at (sample_row 1 "Food" 10) = created_at (sample_row 1 "Misc" 20).
Proof.
  apply (created_at_never_changes never_comparable (fun _ => zero) (fun x => x) false
           [Routes.PutExpense sample_now 1
              (<["category" := VStr "Food"]> (amount_only (VNum (number_of_Z 10))))]
           stale_db (sample_row 1 "Misc" 20) (sample_row 1 "Food" 10)).
  - split; cbn.
    + apply NoDup_singleton.
    + intros r Hr. apply list_elem_of_singleton in Hr. subst r. cbn. lia.
  - apply list_elem_of_here.
  - vm_compute. apply list_elem_of_here.
  - reflexivity.
Defined.

(** ** Every stored row meets the validator's rules *)

Lemma forallb_elem_of {A} (p : A -> bool) (l : list A) :
  forallb p l = true <-> forall x, x ∈ l -> p x = true.
Proof.
  rewrite forallb_forall. split; intros H x Hx; apply H; by apply list_elem_of_In.
Qed.

Lemma handle_table_ok sql_compare sum_real round2 development req d :
  table_ok d = true ->
  table_ok (fst (Routes.handle sql_compare sum_real round2 development req d)) = true.
Proof.
  unfold table_ok. rewrite !forallb_elem_of. intros Hok.
  destruct (handle_steps sql_compare sum_real round2 development req d)
    as [-> | [(r & Hr & _ & ->) | [(i & f & Hf & ->) | (i & ->)]]]; cbn [rows].
  - exact Hok.
  - intros x Hx. apply elem_of_app in Hx as [Hx | Hx]; [by apply Hok |].
    apply list_elem_of_singleton in Hx. by subst x.
  - intros x Hx.
    change (x ∈ (fun r => if id r =? i then f r else r) <$> rows d) in Hx.
    apply list_elem_of_fmap in Hx as (r0 & -> & Hr0).
    destruct (id r0 =? i); [apply Hf | by apply Hok].
  - intros x Hx. apply list_elem_of_filter in Hx as [_ Hx]. by apply Hok.
Qed.

(** X8.  Validation is enforced before every write: if every row of the table
    meets the field rules (well-formed date, amount above 0 and at most
    999999, allowed category, description absent or trimmed and of at most 255
    characters), so does every row after any sequence of requests. *)
Theorem stored_rows_stay_valid sql_compare sum_real round2 development reqs d :
  table_ok d = true ->
  table_ok (Routes.run sql_compare sum_real round2 development reqs d) = true.
Proof.
  revert d. induction reqs as [| req reqs IH]; intros d Hok; [exact Hok |].
  rewrite run_cons. apply IH. by apply handle_table_ok.
Qed.

Lemma stored_rows_stay_valid_witness :
  table_ok (Routes.run never_comparable (fun _ => zero) (fun x => x) false
              [Routes.PostExpense sample_now sample_ts (sample_body (VStr "42.50"));
               Routes.PutExpense sample_now 1 (amount_only (VStr "-4"));
               Routes.PutExpense sample_now 2 (amount_only (VStr " 7.25 "));
               Routes.DeleteExpense 1]
              two_rows_db) = true.
Proof.
  apply (stored_rows_stay_valid never_comparable (fun _ => zero) (fun x => x) false
           [Routes.PostExpense sample_now sample_ts (sample_body (VStr "42.50"));
            Routes.PutExpense sample_now 1 (amount_only (VStr "-4"));
            Routes.PutExpense sample_now 2 (amount_only (VStr " 7.25 "));
            Routes.DeleteExpense 1]
           two_rows_db).
  vm_compute. reflexivity.
Defined.

(** ** Create *)

(** X9.  The create route either appends exactly one row, under the next id and
    with the timestamp of the insertion, leaving every earlier row in place,
    and answers 201 with that row; or it leaves the table as it was and
    answers 400 or 500 with an error envelope. *)
Theorem create_appends_one_row_or_nothing development now ts body d :
  (exists r,
     serve development (createExpense now ts body) d
     = ({| rows := rows d ++ [r]; seq := id r |},
        {| status := 201; body := ExpenseData (Some r) "Expense created successfully" |})
     /\ id r = next_id d /\ created_at r = ts /\ row_ok r = true)
  \/ (fst (serve development (createExpense now ts body) d) = d
      /\ (status (snd (serve development (createExpense now ts body) d)) = 400
          \/ status (snd (serve development (createExpense now ts body) d)) = 500)
      /\ exists c m x,
           Controller.body (snd (serve development (createExpense now ts body) d))
           = Failure c m x).
Proof.
  destruct (Validators.sanitizeExpense body) as [e | err] eqn:Hs.
  - destruct (Validators.isValid (Validators.validateExpense now e)) eqn:Hv.
    + left. exists (inserted_row ts e d).
      rewrite (createExpense_valid _ _ _ _ _ _ Hs Hv).
      split; [reflexivity |]. split; [reflexivity |]. split; [reflexivity |].
      exact (proj1 (proj1 (valid_iff_row_ok now ts body e d Hs) Hv)).
    + right. rewrite (PipelineProps.createExpense_invalid _ _ _ _ _ _ Hs Hv).
      cbn. eauto 10.
  - right. destruct (sanitizeExpense_Throw _ _ Hs) as (msg & -> & Hmsg).
    unfold serve, createExpense, bind, lift. rewrite Hs.
    rewrite errorHandler_plain_error by exact Hmsg. cbn. eauto 10.
Qed.

(** ** Update *)

Lemma valid_fields_read_back now body e :
  Validators.sanitizeExpense body = Ok e ->
  Validators.isValid (Validators.validateExpense now e) = true ->
  column_value (bind_param (Validators.date e)) = Validators.date e
  /\ column_value (bind_param (Validators.amount e)) = Validators.amount e
  /\ column_value (bind_param (Validators.category e)) = Validators.category e
  /\ column_value (bind_param (Validators.description e)) = Validators.description e.
Proof.
  intros Hs Hv.
  pose proof (proj1 (validateExpense_isValid now e) Hv) as Hnil.
  rewrite validateExpense_errors in Hnil.
  apply app_eq_nil in Hnil as [Hd Hnil]. apply app_eq_nil in Hnil as [Ha Hnil].
  apply app_eq_nil in Hnil as [Hc _].
  apply PipelineProps.date_errors_nil in Hd as [sd Hd].
  apply PipelineProps.category_errors_nil in Hc as [sc Hc].
  rewrite (PipelineProps.sanitizeExpense_amount _ _ Hs) in Ha |- *.
  apply PipelineProps.amount_errors_nil_number in Ha.
  rewrite Hd, Hc. cbn [bind_param column_value]. rewrite Ha.
  repeat split.
  destruct (sanitized_description_cases _ _ Hs) as [-> | (s & -> & _ & _)]; reflexivity.
Qed.

(** X10.  A merged record that validates is written to the row of that id: the
    update route answers 200 with the row, which reads back under the same
    id with the sanitized values in its four fields and its id and creation
    time untouched; no row is added or removed and the rows of other ids are
    as before. *)
Theorem update_then_read_back development now i patch d existing e :
  getExpenseById i d = (d, Ok (Some existing)) ->
  Validators.sanitizeExpense (patch ∪ row_object existing) = Ok e ->
  Validators.isValid (Validators.validateExpense now e) = true ->
  exists r d',
    serve development (updateExpenseData now i patch) d
    = (d', json (ExpenseData (Some r) "Expense updated successfully"))
    /\ getExpenseById i d' = (d', Ok (Some r))
    /\ id r = id existing /\ created_at r = created_at existing
    /\ column_value (date r) = Validators.date e
    /\ column_value (amount r) = Validators.amount e
    /\ column_value (category r) = Validators.category e
    /\ column_value (description r) = Validators.description e
    /\ length (rows d') = length (rows d) /\ seq d' = seq d
    /\ (forall r0, r0 ∈ rows d -> id r0 <> i -> r0 ∈ rows d').
Proof.
  intros Hget Hs Hv.
  assert (Hfind : find (fun r => id r =? i) (rows d) = Some existing).
  { rewrite getExpenseById_find in Hget. congruence. }
  exists (updated_row e existing),
         {| rows := map (fun r => if id r =? i then updated_row e r else r) (rows d);
            seq := seq d |}.
  split; [by apply updateExpenseData_valid |].
  split.
  { rewrite getExpenseById_find. cbn [rows].
    rewrite (find_map_id (updated_row e)) by reflexivity. by rewrite Hfind. }
  destruct (valid_fields_read_back now _ e Hs Hv) as (H1 & H2 & H3 & H4).
  cbn [updated_row id created_at date amount category description rows seq].
  repeat (split; [first [reflexivity | assumption | apply length_map] |]).
  intros r0 Hr0 Hne.
  change (r0 ∈ (fun r => if id r =? i then updated_row e r else r) <$> rows d).
  apply list_elem_of_fmap. exists r0. split; [| exact Hr0].
  destruct (Z.eqb_spec (id r0) i); [contradiction | reflexivity].
Qed.

Lemma update_then_read_back_witness :
  exists r d',
    serve false (updateExpenseData sample_now 1
                   (<["category" := VStr "Food"]> (amount_only (VStr " 7.25 ")))) stale_db
    = (d', json (ExpenseData (Some r) "Expense updated successfully"))
    /\ getExpenseById 1 d' = (d', Ok (Some r))
    /\ id r = id (sample_row 1 "Misc" 20)
    /\ created_at r = created_at (sample_row 1 "Misc" 20)
    /\ column_value (date r) = VStr "2024-01-15"
    /\ column_value (amount r) = VNum (parseFloat_string "7.25")
    /\ column_value (category r) = VStr "Food"
    /\ column_value (description r) = VNull
    /\ length (rows d') = length (rows stale_db) /\ seq d' = seq stale_db
    /\ (forall r0, r0 ∈ rows stale_db -> id r0 <> 1 -> r0 ∈ rows d').
Proof.
  apply (update_then_read_back false sample_now 1
           (<["category" := VStr "Food"]> (amount_only (VStr " 7.25 "))) stale_db
           (sample_row 1 "Misc" 20) (sample_expense (parseFloat_string "7.25"))).
  - vm_compute. reflexivity.
  - vm_compute. reflexivity.
  - vm_compute. reflexivity.
Defined.

(** X11.  For an id that no row carries, the update route answers 404 NOT_FOUND
    whatever the payload is: the row is looked up before the payload is
    sanitized or validated. *)
Theorem update_missing_id_not_found development now i patch d :
  (forall r, r ∈ rows d -> id r <> i) ->
  serve development (updateExpenseData now i patch) d = (d, not_found_response development i).
Proof.
  intros Hi. unfold serve, updateExpenseData, bind.
  rewrite getExpenseById_find, (PipelineProps.find_none_absent _ _ Hi). reflexivity.
Qed.

Lemma update_missing_id_not_found_witness :
  serve false (updateExpenseData sample_now 7 (amount_only (VBool true))) stale_db
  = (stale_db, not_found_response false 7).
Proof.
  apply (update_missing_id_not_found false sample_now 7 (amount_only (VBool true)) stale_db).
  intros r Hr. apply list_elem_of_singleton in Hr. subst r. cbn. lia.
Defined.

(** ** [updateExpense] at the store *)

Lemma assign_keeps_key r a : id (assign r a) = id r /\ created_at (assign r a) = created_at r.
Proof.
  destruct a as [col v]. unfold assign.
  repeat match goal with |- context [if ?b then _ else _] => destruct b end;
    split; reflexivity.
Qed.

Lemma assigns_keep_key sets r :
  id (fold_left assign sets r) = id r
  /\ created_at (fold_left assign sets r) = created_at r.
Proof.
  revert r. induction sets as [| a sets IH]; intros r; cbn; [split; reflexivity |].
  destruct (IH (assign r a)) as [-> ->]. apply assign_keeps_key.
Qed.

Lemma updateFields_nil_iff updates :
  updateFields updates = [] <-> forall f, f ∈ allowedFields -> updates !! f = None.
Proof.
  unfold updateFields, allowedFields. cbn. split.
  - intros H f Hf.
    destruct (updates !! "date") eqn:H1; [discriminate |].
    destruct (updates !! "amount") eqn:H2; [discriminate |].
    destruct (updates !! "category") eqn:H3; [discriminate |].
    destruct (updates !! "description") eqn:H4; [discriminate |].
    repeat (apply elem_of_cons in Hf as [-> | Hf]; [assumption |]).
    by apply elem_of_nil in Hf.
  - intros H.
    rewrite (H "date"), (H "amount"), (H "category"), (H "description");
      [reflexivity | | | |]; unfold allowedFields;
      repeat first [apply list_elem_of_here | apply list_elem_of_further].
Qed.

(** X12.  [updateExpense] rejects with "No valid fields to update", before any
    row is touched, exactly when the update has none of the four allowed
    keys; keys outside the allow-list are ignored, and no update changes an
    id, a creation time or the number of rows. *)
Theorem updateExpense_allow_list i updates d :
  ((forall f, f ∈ allowedFields -> updates !! f = None)
   <-> updateExpense i updates d = (d, Throw (new_Error "No valid fields to update")))
  /\ (forall updates',
        (forall f, f ∈ allowedFields -> updates' !! f = updates !! f) ->
        updateExpense i updates' d = updateExpense i updates d)
  /\ map id (rows (fst (updateExpense i updates d))) = map id (rows d)
  /\ map created_at (rows (fst (updateExpense i updates d))) = map created_at (rows d)
  /\ seq (fst (updateExpense i updates d)) = seq d.
Proof.
  split; [| split].
  - rewrite <- updateFields_nil_iff. unfold updateExpense. split.
    + intros ->. reflexivity.
    + destruct (updateFields updates) as [| a l]; [reflexivity |]. cbn [length Nat.eqb].
      destruct (sql_update (a :: l) i d); [| discriminate].
      rewrite getExpenseById_find. discriminate.
  - intros updates' Hsame.
    assert (Hf : updateFields updates' = updateFields updates).
    { unfold updateFields, allowedFields. cbn.
      rewrite (Hsame "date"), (Hsame "amount"), (Hsame "category"), (Hsame "description");
        [reflexivity | | | |]; unfold allowedFields;
        repeat first [apply list_elem_of_here | apply list_elem_of_further]. }
    unfold updateExpense. by rewrite Hf.
  - unfold updateExpense.
    destruct (Nat.eqb (length (updateFields updates)) 0); [repeat split; reflexivity |].
    unfold sql_update. destruct (find _ _); [repeat split; reflexivity |].
    rewrite getExpenseById_find. cbn [fst rows seq].
    split; [| split; [| reflexivity]].
    + apply ids_of_rewritten. intros r. apply assigns_keep_key.
    + apply created_of_rewritten. intros r. apply assigns_keep_key.
Qed.

(** ** Delete *)

Lemma find_Some_elem i (l : list row) r :
  find (fun r => id r =? i) l = Some r -> r ∈ l /\ id r = i.
Proof.
  intros H. apply find_some in H as [Hin Hid].
  split; [by apply list_elem_of_In | by apply Z.eqb_eq].
Qed.

(** X13.  For an id that a row carries, the delete route removes the rows of that
    id and no other, and answers 200 with the id; the id is then unknown: a
    lookup finds nothing and a second delete answers 404. *)
Theorem delete_existing_removes_it development i d existing :
  getExpenseById i d = (d, Ok (Some existing)) ->
  exists d',
    serve development (removeExpense i) d
    = (d', json (Deleted "Expense deleted successfully" i))
    /\ rows d' = filter (fun r => id r ≠ i) (rows d) /\ seq d' = seq d
    /\ (forall r, r ∈ rows d -> id r <> i -> r ∈ rows d')
    /\ getExpenseById i d' = (d', Ok None)
    /\ serve development (removeExpense i) d' = (d', not_found_response development i).
Proof.
  intros Hget.
  assert (Hfind : find (fun r => id r =? i) (rows d) = Some existing).
  { rewrite getExpenseById_find in Hget. congruence. }
  destruct (find_Some_elem _ _ _ Hfind) as [Hin Hid].
  set (d' := {| rows := filter (fun r => id r ≠ i) (rows d); seq := seq d |}).
  assert (Hgone : forall r, r ∈ rows d' -> id r <> i).
  { intros r Hr. by apply list_elem_of_filter in Hr as [Hr _]. }
  exists d'. split.
  { unfold serve, removeExpense, bind. rewrite Hget. cbv beta iota.
    unfold deleteExpense, sql_delete.
    assert (Hrem : existing ∈ filter (fun r => id r = i) (rows d))
      by (apply list_elem_of_filter; auto).
    destruct (filter (fun r => id r = i) (rows d)) as [| y l] eqn:Hf;
      [by apply elem_of_nil in Hrem |].
    cbn [length]. destruct (Z.eqb_spec (Z.of_nat (S (length l))) 0); [lia |].
    reflexivity. }
  split; [reflexivity |]. split; [reflexivity |]. split.
  { intros r Hr Hne. apply list_elem_of_filter. auto. }
  split.
  - rewrite getExpenseById_find. by rewrite (PipelineProps.find_none_absent _ _ Hgone).
  - unfold serve, removeExpense, bind.
    rewrite getExpenseById_find, (PipelineProps.find_none_absent _ _ Hgone). reflexivity.
Qed.

Lemma delete_existing_removes_it_witness :
  exists d',
    serve false (removeExpense 1) two_rows_db
    = (d', json (Deleted "Expense deleted successfully" 1))
    /\ rows d' = filter (fun r => id r ≠ 1) (rows two_rows_db) /\ seq d' = seq two_rows_db
    /\ (forall r, r ∈ rows two_rows_db -> id r <> 1 -> r ∈ rows d')
    /\ getExpenseById 1 d' = (d', Ok None)
    /\ serve false (removeExpense 1) d' = (d', not_found_response false 1).
Proof.
  apply (delete_existing_removes_it false 1 two_rows_db (sample_row 1 "Food" 12)).
  vm_compute. reflexivity.
Defined.

(** ** Partial updates *)

Lemma is_digit_not_space c : is_digit c = true -> is_space c = false.
Proof.
  unfold is_digit, is_space. intros H. apply andb_true_iff in H as [H1 H2].
  apply Z.leb_le in H1, H2.
  destruct (Z.leb_spec 9 (code c)), (Z.leb_spec (code c) 13),
           (Z.eqb_spec (code c) 32), (Z.eqb_spec (code c) 160); cbn;
    try reflexivity; lia.
Qed.

Lemma trimEnd_last s c :
  is_space c = false -> trimEnd (s +:+ String c EmptyString) = s +:+ String c EmptyString.
Proof.
  intros Hc. induction s as [| a s IH]; simpl.
  - by rewrite Hc.
  - simpl in IH. rewrite IH. by destruct s.
Qed.

Lemma date_fields_shape s f :
  date_fields s = Some f ->
  exists y1 rest d2,
    s = String y1 (rest +:+ String d2 EmptyString)
    /\ is_digit y1 = true /\ is_digit d2 = true.
Proof.
  unfold date_fields.
  destruct s as [| y1 [| y2 [| y3 [| y4 [| h1 [| m1 [| m2 [| h2 [| d1 [| d2 [| ? ?]]]]]]]]]]];
    try discriminate.
  intros H.
  exists y1, (String y2 (String y3 (String y4 (String h1 (String m1 (String m2
               (String h2 (String d1 EmptyString)))))))), d2.
  split; [reflexivity |].
  unfold two_digits in H.
  destruct ((code h1 =? 45) && (code h2 =? 45)); [| discriminate].
  destruct (is_digit y1); [| discriminate].
  destruct (is_digit d2); [auto |].
  destruct (is_digit y2), (is_digit y3), (is_digit y4), (is_digit m1), (is_digit m2),
           (is_digit d1); discriminate.
Qed.

Lemma valid_date_trimmed s : Validators.isValidDate (VStr s) = true -> trim s = s.
Proof.
  cbn. unfold matches_date_pattern.
  destruct (date_fields s) as [f |] eqn:Hf; [| discriminate]. intros _.
  destruct (date_fields_shape _ _ Hf) as (y1 & rest & d2 & -> & H1 & H2).
  apply is_digit_not_space in H1, H2.
  unfold trim. rewrite trimStart_fixed by exact H1.
  change (String y1 (rest +:+ String d2 EmptyString))
    with (String y1 rest +:+ String d2 EmptyString).
  by apply trimEnd_last.
Qed.

Lemma valid_category_trimmed s :
  bool_decide (s ∈ Validators.VALID_CATEGORIES) = true -> trim s = s.
Proof.
  intros H. apply bool_decide_eq_true in H. unfold Validators.VALID_CATEGORIES in H.
  repeat (apply elem_of_cons in H as [-> | H]; [reflexivity |]).
  by apply elem_of_nil in H.
Qed.

Lemma get_row_object r :
  get (row_object r) "date" = column_value (date r)
  /\ get (row_object r) "amount" = column_value (amount r)
  /\ get (row_object r) "category" = column_value (category r)
  /\ get (row_object r) "description" = column_value (description r).
Proof. repeat split; reflexivity. Qed.

(** What sanitizing a valid stored row gives: the row's own values. *)
Lemma sanitize_kept_fields patch existing e :
  row_ok existing = true ->
  Validators.sanitizeExpense (patch ∪ row_object existing) = Ok e ->
  (patch !! "date" = None -> bind_param (Validators.date e) = date existing)
  /\ (patch !! "amount" = None -> bind_param (Validators.amount e) = amount existing)
  /\ (patch !! "category" = None -> bind_param (Validators.category e) = category existing)
  /\ (patch !! "description" = None ->
      bind_param (Validators.description e) = description existing).
Proof.
  intros Hok Hs.
  destruct (PipelineProps.sanitizeExpense_Ok _ _ Hs) as (vd & vc & vt & Hd & Hc & Ht & ->).
  cbn [Validators.date Validators.amount Validators.category Validators.description].
  rewrite !PipelineProps.merge_get in *.
  destruct (get_row_object existing) as (G1 & G2 & G3 & G4).
  unfold row_ok in Hok.
  apply andb_true_iff in Hok as [Hok Hdo]. apply andb_true_iff in Hok as [Hok Hco].
  apply andb_true_iff in Hok as [Hda Hao].
  split; [| split; [| split]]; intros Hnone; rewrite Hnone in *.
  - rewrite G1 in Hd. destruct (date existing) as [| | s]; try discriminate Hda.
    cbn in Hd, Hda. injection Hd as <-.
    change (Validators.isValidDate (VStr s) = true) in Hda.
    by rewrite (valid_date_trimmed s Hda).
  - rewrite G2. destruct (amount existing) as [| x |]; try discriminate Hao.
    cbn in Hao. apply andb_true_iff in Hao as [Hlo _].
    destruct x as [[] | | |]; try discriminate Hlo; reflexivity.
  - rewrite G3 in Hc. destruct (category existing) as [| | s]; try discriminate Hco.
    cbn in Hc, Hco. injection Hc as <-. by rewrite (valid_category_trimmed s Hco).
  - rewrite G4 in Ht. destruct (description existing) as [| | s]; try discriminate Hdo.
    + cbn in Ht. injection Ht as <-. reflexivity.
    + cbn in Ht, Hdo. injection Ht as <-.
      apply andb_true_iff in Hdo as [Hdo _]. apply andb_true_iff in Hdo as [Hne Htr].
      apply negb_true_iff in Hne. apply String.eqb_eq in Htr.
      rewrite Htr. unfold or_else. cbn. by rewrite Hne.
Qed.

(** X14.  A partial update leaves alone what it does not name: when the stored row
    meets the field rules and the merged record validates, each of date,
    amount, category and description that is not a key of the payload has,
    in the row the update route answers with, the value it had before. *)
Theorem partial_update_keeps_other_fields development now i patch d existing e :
  getExpenseById i d = (d, Ok (Some existing)) ->
  row_ok existing = true ->
  Validators.sanitizeExpense (patch ∪ row_object existing) = Ok e ->
  Validators.isValid (Validators.validateExpense now e) = true ->
  exists r,
    snd (serve development (updateExpenseData now i patch) d)
    = json (ExpenseData (Some r) "Expense updated successfully")
    /\ (patch !! "date" = None -> date r = date existing)
    /\ (patch !! "amount" = None -> amount r = amount existing)
    /\ (patch !! "category" = None -> category r = category existing)
    /\ (patch !! "description" = None -> description r = description existing).
Proof.
  intros Hget Hok Hs Hv. exists (updated_row e existing).
  rewrite (updateExpenseData_valid _ _ _ _ _ _ _ Hget Hs Hv).
  split; [reflexivity |]. by apply sanitize_kept_fields.
Qed.

Lemma partial_update_keeps_other_fields_witness :
  exists r,
    snd (serve false (updateExpenseData sample_now 2 (amount_only (VStr " 7.25 ")))
           two_rows_db)
    = json (ExpenseData (Some r) "Expense updated successfully")
    /\ (amount_only (VStr " 7.25 ") !! "date" = None
        -> date r = date (sample_row 2 "Transport" 30))
    /\ (amount_only (VStr " 7.25 ") !! "amount" = None
        -> amount r = amount (sample_row 2 "Transport" 30))
    /\ (amount_only (VStr " 7.25 ") !! "category" = None
        -> category r = category (sample_row 2 "Transport" 30))
    /\ (amount_only (VStr " 7.25 ") !! "description" = None
        -> description r = description (sample_row 2 "Transport" 30)).
Proof.
  apply (partial_update_keeps_other_fields false sample_now 2 (amount_only (VStr " 7.25 "))
           two_rows_db (sample_row 2 "Transport" 30)
           {| Validators.date := VStr "2024-01-15";
              Validators.amount := VNum (parseFloat_string " 7.25 ");
              Validators.category := VStr "Transport";
              Validators.description := VNull |}).
  - vm_compute. reflexivity.
  - vm_compute. reflexivity.
  - vm_compute. reflexivity.
  - vm_compute. reflexivity.
Defined.

(** ** Listing *)

Lemma insert_desc_perm r l : insert_desc r l ≡ₚ r :: l.
Proof.
  induction l as [| y l IH]; cbn; [reflexivity |].
  destruct (sqlval_lt (date y) (date r)); [reflexivity |].
  rewrite IH. apply Permutation_swap.
Qed.

Lemma order_fold_perm l acc :
  fold_left (fun acc r => insert_desc r acc) l acc ≡ₚ l ++ acc.
Proof.
  revert acc. induction l as [| y l IH]; intros acc; cbn; [reflexivity |].
  rewrite IH, insert_desc_perm. by rewrite Permutation_middle.
Qed.

Lemma order_by_date_desc_perm l : order_by_date_desc l ≡ₚ l.
Proof. unfold order_by_date_desc. rewrite order_fold_perm. by rewrite app_nil_r. Qed.

(** X15.  The listing loses and invents no row: it is a rearrangement of the rows
    that satisfy the WHERE clause, of all the rows when the filter has no
    truthy [category] and not both bounds; the list route answers 200 with
    that list and its length as [count]. *)
Theorem listing_is_the_matching_rows sql_compare options d :
  exists l,
    getAllExpenses sql_compare options d = (d, Ok l)
    /\ l ≡ₚ filter (fun r => forallb (fun c => holds sql_compare c r) (whereClause options)
                             = true) (rows d)
    /\ (whereClause options = [] -> l ≡ₚ rows d)
    /\ forall development,
         serve development (Controller.fetchAllExpenses sql_compare options) d
         = (d, json (ExpenseList l (Z.of_nat (length l)))).
Proof.
  eexists. split; [reflexivity |]. split; [apply order_by_date_desc_perm |]. split.
  - intros ->. rewrite order_by_date_desc_perm. cbn.
    induction (rows d) as [| y l IH]; [reflexivity |].
    rewrite filter_cons_True by reflexivity. by rewrite IH.
  - intros development. reflexivity.
Qed.

Lemma text_compare_not_lt_trans (a b c : string) :
  String.compare a b <> Lt -> String.compare b c <> Lt -> String.compare a c <> Lt.
Proof.
  intros Hab Hbc Hac.
  destruct (String.compare a b) eqn:E; [| contradiction |].
  - apply OrderedTypeEx.String_as_OT.cmp_eq in E. subst b. contradiction.
  - assert (Hba : String.compare b a = Lt).
    { rewrite String.compare_antisym. by rewrite E. }
    apply Hbc. apply OrderedTypeEx.String_as_OT.cmp_lt.
    eapply OrderedTypeEx.String_as_OT.lt_trans;
      apply OrderedTypeEx.String_as_OT.cmp_lt; eassumption.
Qed.

Lemma text_lt_false (a b : string) :
  sqlval_lt (SText a) (SText b) = false <-> String.compare a b <> Lt.
Proof. cbn. destruct (String.compare a b); split; congruence. Qed.

Lemma text_lt_asym (a b : string) :
  sqlval_lt (SText a) (SText b) = true -> sqlval_lt (SText b) (SText a) = false.
Proof.
  cbn. rewrite (String.compare_antisym b a). by destruct (String.compare a b).
Qed.

Lemma insert_desc_sorted r l :
  has_text_date r -> Forall has_text_date l ->
  newest_first l -> newest_first (insert_desc r l).
Proof.
  intros [sr Hr]. unfold newest_first.
  induction l as [| y l IH]; intros Hl Hs; cbn.
  - apply SSorted_cons; [apply SSorted_nil | apply List.Forall_nil].
  - apply Forall_cons in Hl as [[sy Hsy] Hl].
    apply StronglySorted_inv in Hs as [Hs Hy]. specialize (IH Hl Hs).
    destruct (sqlval_lt (date y) (date r)) eqn:Hlt.
    + apply SSorted_cons; [by apply SSorted_cons |].
      rewrite Hr, Hsy in Hlt. apply List.Forall_cons.
      * rewrite Hr, Hsy. by apply text_lt_asym.
      * apply List.Forall_forall. intros z Hz.
        rewrite List.Forall_forall in Hy. specialize (Hy z Hz).
        apply list_elem_of_In in Hz.
        rewrite Forall_forall in Hl. destruct (Hl z Hz) as [sz Hsz].
        rewrite Hr, Hsz. rewrite Hsy, Hsz in Hy.
        apply text_lt_false. apply text_lt_asym, text_lt_false in Hlt.
        apply text_lt_false in Hy.
        by apply (text_compare_not_lt_trans sr sy sz).
    + apply SSorted_cons; [exact IH |].
      apply List.Forall_forall. intros z Hz.
      apply list_elem_of_In in Hz. rewrite insert_desc_perm in Hz.
      apply elem_of_cons in Hz as [-> | Hz]; [exact Hlt |].
      rewrite List.Forall_forall in Hy. apply Hy. by apply list_elem_of_In.
Qed.

Lemma order_fold_sorted l acc :
  Forall has_text_date l -> Forall has_text_date acc ->
  newest_first acc ->
  newest_first (fold_left (fun acc r => insert_desc r acc) l acc).
Proof.
  revert acc. induction l as [| y l IH]; intros acc Hl Hacc Hs; cbn; [exact Hs |].
  apply Forall_cons in Hl as [Hy Hl]. apply IH; [exact Hl | |].
  - rewrite insert_desc_perm. by apply Forall_cons.
  - by apply insert_desc_sorted.
Qed.

(** X16.  Newest first: when every row's date is a text, as it is for rows written
    through the handlers, each row of the listing has a date at least as
    late as every row after it. *)
Theorem listing_is_newest_first sql_compare options d :
  Forall has_text_date (rows d) ->
  exists l,
    getAllExpenses sql_compare options d = (d, Ok l) /\ newest_first l.
Proof.
  intros Hd. eexists. split; [reflexivity |].
  apply order_fold_sorted.
  - apply Forall_forall. intros r Hr. apply list_elem_of_filter in Hr as [_ Hr].
    rewrite Forall_forall in Hd. by apply Hd.
  - apply Forall_nil_2.
  - apply SSorted_nil.
Qed.

Lemma listing_is_newest_first_witness :
  exists l,
    getAllExpenses text_equal food_filter two_rows_db = (two_rows_db, Ok l)
    /\ newest_first l.
Proof.
  apply (listing_is_newest_first text_equal food_filter two_rows_db).
  apply Forall_cons. split; [by exists "2024-01-15" |].
  apply Forall_cons. split; [by exists "2024-01-15" |]. apply Forall_nil_2.
Defined.

(** ** Summary *)

Lemma sumZ_cons x l : sumZ (x :: l) = x + sumZ l.
Proof. reflexivity. Qed.

Lemma sumZ_indicator (x : sqlval) (cs : list sqlval) :
  NoDup cs ->
  sumZ (map (fun c => if decide (x = c) then 1 else 0) cs)
  = if decide (x ∈ cs) then 1 else 0.
Proof.
  induction cs as [| c cs IH]; intros Hnd; [reflexivity |].
  cbn [map]. rewrite sumZ_cons.
  apply NoDup_cons in Hnd as [Hc Hnd]. rewrite (IH Hnd).
  destruct (decide (x = c)) as [-> | Hne].
  - destruct (decide (c ∈ cs)); [contradiction |].
    destruct (decide (c ∈ c :: cs)) as [_ | Hn]; [lia |].
    exfalso. apply Hn, list_elem_of_here.
  - destruct (decide (x ∈ cs)) as [Hin | Hnin].
    + destruct (decide (x ∈ c :: cs)) as [_ | Hn]; [lia |].
      exfalso. by apply Hn, list_elem_of_further.
    + destruct (decide (x ∈ c :: cs)) as [Hin | _]; [| lia].
      apply elem_of_cons in Hin as [-> | Hin]; contradiction.
Qed.

Lemma group_counts_cons (cs : list sqlval) (y : row) (l : list row) :
  sumZ (map (fun c => Z.of_nat (length (filter (fun r => category r = c) (y :: l)))) cs)
  = sumZ (map (fun c => Z.of_nat (length (filter (fun r => category r = c) l))) cs)
    + sumZ (map (fun c => if decide (category y = c) then 1 else 0) cs).
Proof.
  induction cs as [| c cs IH]; [reflexivity |].
  cbn [map]. rewrite !sumZ_cons, IH.
  destruct (decide (category y = c)) as [Hy | Hy].
  - rewrite filter_cons_True by exact Hy. cbn [length]. lia.
  - rewrite filter_cons_False by exact Hy. lia.
Qed.

Lemma group_counts_sum (cs : list sqlval) (l : list row) :
  NoDup cs ->
  (forall r, r ∈ l -> category r ∈ cs) ->
  sumZ (map (fun c => Z.of_nat (length (filter (fun r => category r = c) l))) cs)
  = Z.of_nat (length l).
Proof.
  intros Hnd. induction l as [| y l IH]; intros Hin.
  - clear. induction cs as [| c cs IHc]; [reflexivity |].
    cbn [map]. rewrite sumZ_cons, IHc. reflexivity.
  - rewrite group_counts_cons, IH, (sumZ_indicator _ _ Hnd).
    + destruct (decide (category y ∈ cs)) as [_ | Hn]; [cbn [length]; lia |].
      exfalso. apply Hn, Hin, list_elem_of_here.
    + intros r Hr. apply Hin. by apply list_elem_of_further.
Qed.

(** X17.  The counts of the summary add up: the [totalCount]s of the category rows
    sum to the [totalCount] of the TOTAL row, which is the number of rows of
    the table. *)
Theorem summary_counts_add_up sum_real round2 d :
  exists groups total,
    getExpenseSummary sum_real round2 d = (d, Ok (groups ++ [total])%list)
    /\ s_category total = SText "TOTAL"
    /\ sumZ (map totalCount groups) = totalCount total
    /\ totalCount total = Z.of_nat (length (rows d)).
Proof.
  exists (map (group_row sum_real round2 (rows d)) (remove_dups (map category (rows d)))),
         (total_row sum_real round2 (rows d)).
  split; [reflexivity |]. split; [reflexivity |]. split; [| reflexivity].
  rewrite map_map. cbn [totalCount group_row total_row].
  apply group_counts_sum; [apply NoDup_remove_dups |].
  intros r Hr. apply elem_of_remove_dups.
  change (category r ∈ category <$> rows d). by apply list_elem_of_fmap_2.
Qed.

End ServerProps.

(* ===================================================================== *)
(** * Further properties of the client *)
(* ===================================================================== *)

Module ClientExtraProps.
Import JS Props.

(** ** [truncate] *)

Lemma length_substring_prefix n s :
  (n <= String.length s)%nat -> String.length (String.substring 0 n s) = n.
Proof.
  revert s. induction n as [| n IH]; intros s Hn.
  - by destruct s.
  - destruct s as [| c s]; cbn in *; [lia |]. rewrite IH; [reflexivity | lia].
Qed.

Lemma length_append s t : String.length (s +:+ t) = (String.length s + String.length t)%nat.
Proof. induction s as [| c s IH]; simpl; [reflexivity | by rewrite IH]. Qed.

Lemma substring_is_prefix n s :
  (n <= String.length s)%nat ->
  exists rest, s = String.substring 0 n s +:+ rest.
Proof.
  revert s. induction n as [| n IH]; intros s Hn.
  - exists s. by destruct s.
  - destruct s as [| c s]; cbn in *; [lia |].
    destruct (IH s ltac:(lia)) as [rest Hrest]. exists rest.
    change (String c s = String c (String.substring 0 n s +:+ rest)). by f_equal.
Qed.

(** X18.  [truncate] returns a string of at most [length] characters as it is;
    a longer one is cut to its first [length] characters followed by three
    dots, so the result has [length + 3] characters. *)
Theorem truncate_cuts_long_strings str length :
  0 <= length ->
  (Z.of_nat (String.length str) <= length -> ClientUtils.truncate str length = str)
  /\ (length < Z.of_nat (String.length str) ->
      Z.of_nat (String.length (ClientUtils.truncate str length)) = length + 3
      /\ exists rest,
           str = String.substring 0 (Z.to_nat length) str +:+ rest
           /\ ClientUtils.truncate str length
              = String.substring 0 (Z.to_nat length) str +:+ "...").
Proof.
  intros Hlen. unfold ClientUtils.truncate. split.
  - intros Hshort. destruct (Z.leb_spec (Z.of_nat (String.length str)) length); [| lia].
    by rewrite orb_true_r.
  - intros Hlong. destruct (Z.leb_spec (Z.of_nat (String.length str)) length); [lia |].
    destruct str as [| c str]; [cbn in Hlong; lia |]. cbn [is_empty orb].
    split.
    + rewrite length_append, length_substring_prefix by lia. cbn. lia.
    + destruct (substring_is_prefix (Z.to_nat length) (String c str) ltac:(lia))
        as [rest Hrest].
      exists rest. split; [exact Hrest | reflexivity].
Qed.

Lemma truncate_cuts_long_strings_witness :
  (Z.of_nat (String.length "groceries") <= 4 -> ClientUtils.truncate "groceries" 4 = "groceries")
  /\ (4 < Z.of_nat (String.length "groceries") ->
      Z.of_nat (String.length (ClientUtils.truncate "groceries" 4)) = 4 + 3
      /\ exists rest,
           "groceries" = String.substring 0 (Z.to_nat 4) "groceries" +:+ rest
           /\ ClientUtils.truncate "groceries" 4
              = String.substring 0 (Z.to_nat 4) "groceries" +:+ "...").
Proof. apply (truncate_cuts_long_strings "groceries" 4). lia. Defined.

(** ** [escapeHtml] *)

Lemma code_inj c c' : code c = code c' -> c = c'.
Proof.
  unfold code. intros H. apply Nat2Z.inj in H.
  rewrite <- (ascii_nat_embedding c), <- (ascii_nat_embedding c'). by rewrite H.
Qed.

Lemma chars_append s t :
  list_ascii_of_string (s +:+ t) = (list_ascii_of_string s ++ list_ascii_of_string t)%list.
Proof. induction s as [| c s IH]; simpl; [reflexivity | by rewrite IH]. Qed.

Lemma escape_char_safe c x : In x (list_ascii_of_string (ClientUtils.escape_char c)) -> ~ ClientUtils.markup x.
Proof.
  unfold ClientUtils.escape_char, ClientUtils.markup.
  destruct (Z.eqb_spec (code c) 38); [| destruct (Z.eqb_spec (code c) 60);
    [| destruct (Z.eqb_spec (code c) 62); [| destruct (Z.eqb_spec (code c) 34);
    [| destruct (Z.eqb_spec (code c) 39)]]]]; cbn [list_ascii_of_string In];
    intros Hx; repeat (destruct Hx as [<- | Hx]; [vm_compute; intuition congruence |]);
    try contradiction.
Qed.

Lemma escape_char_plain c :
  code c <> 38 -> ~ ClientUtils.markup c -> ClientUtils.escape_char c = String c EmptyString.
Proof.
  unfold ClientUtils.escape_char, ClientUtils.markup. intros H1 H2.
  destruct (Z.eqb_spec (code c) 38); [lia |].
  destruct (Z.eqb_spec (code c) 60); [lia |].
  destruct (Z.eqb_spec (code c) 62); [lia |].
  destruct (Z.eqb_spec (code c) 34); [lia |].
  destruct (Z.eqb_spec (code c) 39); [lia | reflexivity].
Qed.

Lemma escapeHtml_cons_inj c c' u v :
  ClientUtils.escape_char c +:+ u = ClientUtils.escape_char c' +:+ v -> c = c' /\ u = v.
Proof.
  unfold ClientUtils.escape_char.
  destruct (Z.eqb_spec (code c) 38) as [E1 |]; [| destruct (Z.eqb_spec (code c) 60) as [E1 |];
    [| destruct (Z.eqb_spec (code c) 62) as [E1 |];
    [| destruct (Z.eqb_spec (code c) 34) as [E1 |];
    [| destruct (Z.eqb_spec (code c) 39) as [E1 |]]]]];
  (destruct (Z.eqb_spec (code c') 38) as [E2 |];
    [| destruct (Z.eqb_spec (code c') 60) as [E2 |];
    [| destruct (Z.eqb_spec (code c') 62) as [E2 |];
    [| destruct (Z.eqb_spec (code c') 34) as [E2 |];
    [| destruct (Z.eqb_spec (code c') 39) as [E2 |]]]]]);
  intros H; simpl in H; try discriminate H;
    try (injection H as H; split; [apply code_inj; congruence | assumption]);
    try (injection H as Hc H; split; assumption);
    try (injection H as Hc H; exfalso; subst; vm_compute in *; congruence).
Qed.

(** X19.  [escapeHtml] leaves no [<], [>], double or single quote in its result, is
    the identity on a text that has none of the five special characters, and
    never maps two texts to the same result. *)
Theorem escapeHtml_is_safe_and_faithful text :
  (forall x, In x (list_ascii_of_string (ClientUtils.escapeHtml text)) -> ~ ClientUtils.markup x)
  /\ ((forall x, In x (list_ascii_of_string text) -> code x <> 38 /\ ~ ClientUtils.markup x) ->
      ClientUtils.escapeHtml text = text)
  /\ (forall text', ClientUtils.escapeHtml text = ClientUtils.escapeHtml text' -> text = text').
Proof.
  split; [| split].
  - induction text as [| c text IH]; cbn [ClientUtils.escapeHtml]; [intros x [] |].
    intros x Hx. rewrite chars_append in Hx. apply in_app_or in Hx as [Hx | Hx].
    + by apply (escape_char_safe c).
    + by apply IH.
  - induction text as [| c text IH]; intros H; [reflexivity |].
    cbn [ClientUtils.escapeHtml].
    destruct (H c (or_introl eq_refl)) as [H1 H2].
    rewrite escape_char_plain by assumption. rewrite IH; [reflexivity |].
    intros x Hx. apply H. by right.
  - induction text as [| c text IH]; intros [| c' text'] H.
    + reflexivity.
    + exfalso. cbn [ClientUtils.escapeHtml] in H. unfold ClientUtils.escape_char in H.
      repeat match type of H with context [if ?b then _ else _] => destruct b end;
        discriminate H.
    + exfalso. cbn [ClientUtils.escapeHtml] in H. unfold ClientUtils.escape_char in H.
      repeat match type of H with context [if ?b then _ else _] => destruct b end;
        discriminate H.
    + cbn [ClientUtils.escapeHtml] in H. apply escapeHtml_cons_inj in H as [-> H].
      f_equal. by apply IH.
Qed.

(** ** The form validator and the field validator *)

Lemma local_midnight_le_now tz now : local_midnight tz now <= now.
Proof.
  unfold local_midnight, ms_per_day.
  pose proof (Z.mul_div_le (now + tz * 60000) 86400000 ltac:(lia)). lia.
Qed.

Lemma date_gt_mono t a b : a <= b -> date_gt t (Some b) = true -> date_gt t (Some a) = true.
Proof.
  destruct t as [x |]; cbn; [| discriminate].
  intros Hab H. apply Z.ltb_lt in H. apply Z.ltb_lt. lia.
Qed.

(** X20.  A form that [validateExpenseForm] accepts passes [validateField] on its
    date, its amount and its category: the check run on single inputs never
    flags a field of a form that can be submitted. *)
Theorem accepted_form_passes_field_checks tz now f :
  ClientUtils.validateExpenseForm tz now f = None ->
  ClientUtils.validateField now "date" (ClientUtils.date f) = None
  /\ ClientUtils.validateField now "amount" (ClientUtils.amount f) = None
  /\ ClientUtils.validateField now "category" (ClientUtils.category f) = None.
Proof.
  unfold ClientUtils.validateExpenseForm, ClientUtils.validateField.
  cbn [String.eqb Ascii.eqb Bool.eqb].
  destruct (is_empty (ClientUtils.date f)); [discriminate |].
  destruct (date_gt (new_Date (ClientUtils.date f)) (Some (local_midnight tz now))) eqn:Hd;
    [discriminate |].
  destruct (is_empty (ClientUtils.amount f)); [discriminate |]. cbn [orb].
  destruct (is_nan (parseFloat_string (ClientUtils.amount f))); [discriminate |].
  destruct (num_le (parseFloat_string (ClientUtils.amount f)) zero); [discriminate |].
  destruct (num_gt _ _); [discriminate |].
  destruct (is_empty (ClientUtils.category f)); [discriminate |]. intros _.
  repeat split.
  destruct (date_gt (new_Date (ClientUtils.date f)) (Some now)) eqn:Hn; [| reflexivity].
  apply (date_gt_mono _ _ _ (local_midnight_le_now tz now)) in Hn. congruence.
Qed.

Lemma accepted_form_passes_field_checks_witness :
  ClientUtils.validateField sample_now "date" (ClientUtils.date today_form) = None
  /\ ClientUtils.validateField sample_now "amount" (ClientUtils.amount today_form) = None
  /\ ClientUtils.validateField sample_now "category" (ClientUtils.category today_form) = None.
Proof.
  apply (accepted_form_passes_field_checks 0 sample_now today_form).
  vm_compute. reflexivity.
Defined.

(** ** The client and the server on the same form *)

Lemma trim_nonempty s : is_empty (trim s) = false -> is_empty s = false.
Proof. destruct s; [discriminate | reflexivity]. Qed.

Lemma new_Date_midnight s t :
  new_Date s = Some t -> exists day, t = day * ms_per_day.
Proof.
  unfold new_Date. destruct (date_fields s) as [[[y m] d] |]; [| discriminate].
  destruct (_ && _); [| discriminate]. intros [= <-]. eauto.
Qed.

Lemma new_Date_valid s t : new_Date s = Some t -> Validators.isValidDate (VStr s) = true.
Proof.
  intros H. cbn. unfold matches_date_pattern. rewrite H.
  unfold new_Date in H. by destruct (date_fields s).
Qed.

(** X21.  On a clock at or behind UTC that shows the same calendar day as UTC, a
    form whose body the server's sanitizer and validator accept is accepted
    by the client's form validator: the client is then no stricter than the
    server. *)
Theorem server_accepted_form_passes_client tz now f e :
  tz <= 0 ->
  local_day tz now = local_day 0 now ->
  Validators.sanitizeExpense (App.form_body f) = Ok e ->
  Validators.isValid (Validators.validateExpense now e) = true ->
  ClientUtils.validateExpenseForm tz now f = None.
Proof.
  intros Htz Hday Hs Hv.
  assert (He : e = {| Validators.date := VStr (trim (ClientUtils.date f));
                      Validators.amount :=
                        VNum (parseFloat_string (ClientUtils.amount f));
                      Validators.category := VStr (trim (ClientUtils.category f));
                      Validators.description :=
                        or_else (VStr (trim (ClientUtils.description f))) VNull |}).
  { cbv [Validators.sanitizeExpense App.form_body] in Hs.
    change (Ok {| Validators.date := VStr (trim (ClientUtils.date f));
                  Validators.amount := VNum (parseFloat_string (ClientUtils.amount f));
                  Validators.category := VStr (trim (ClientUtils.category f));
                  Validators.description :=
                    or_else (VStr (trim (ClientUtils.description f))) VNull |} = Ok e) in Hs.
    congruence. }
  pose proof (proj1 (ValidatorProps.validateExpense_isValid now e) Hv) as Hnil.
  rewrite ValidatorProps.validateExpense_errors in Hnil. subst e.
  cbn [Validators.date Validators.amount Validators.category Validators.description] in Hnil.
  apply app_eq_nil in Hnil as [Hd Hnil]. apply app_eq_nil in Hnil as [Ha Hnil].
  apply app_eq_nil in Hnil as [Hc _].
  apply ServerProps.date_errors_nil_iff in Hd as [Hd Hfut].
  apply ServerProps.amount_errors_nil_iff in Ha as (Hn & Hle & Hgt).
  apply ServerProps.category_errors_nil_iff in Hc.
  destruct (ServerProps.isValidDate_string _ Hd) as (sd & [= <-] & Hde).
  assert (Hce : is_empty (trim (ClientUtils.category f)) = false).
  { cbn in Hc. by destruct (trim (ClientUtils.category f)). }
  unfold ClientUtils.validateExpenseForm.
  rewrite (trim_nonempty _ Hde).
  assert (Hclient : date_gt (new_Date (ClientUtils.date f)) (Some (local_midnight tz now))
                    = false).
  { destruct (new_Date (ClientUtils.date f)) as [t |] eqn:Ht; [| reflexivity].
    pose proof (ServerProps.valid_date_trimmed _ (new_Date_valid _ _ Ht)) as Htrim.
    rewrite Htrim in Hfut. cbn [Validators.Date_of] in Hfut. rewrite Ht in Hfut.
    destruct (new_Date_midnight _ _ Ht) as [day ->].
    cbn in Hfut |- *. apply Z.ltb_ge in Hfut. apply Z.ltb_ge.
    unfold local_midnight. fold (local_day tz now). rewrite Hday.
    unfold local_day, ms_per_day in *. rewrite Z.add_0_r.
    assert (day <= now / 86400000) by (apply Z.div_le_lower_bound; lia).
    nia. }
  rewrite Hclient.
  destruct (is_empty (ClientUtils.amount f)) eqn:Hae.
  { destruct (ClientUtils.amount f); [discriminate Hn | discriminate Hae]. }
  cbn [orb]. rewrite Hn, Hle, Hgt. by rewrite (trim_nonempty _ Hce).
Qed.

Lemma server_accepted_form_passes_client_witness :
  ClientUtils.validateExpenseForm 0 sample_now today_form = None.
Proof.
  apply (server_accepted_form_passes_client 0 sample_now today_form
           (sample_expense (number_of_Z 10))).
  - lia.
  - reflexivity.
  - vm_compute. reflexivity.
  - vm_compute. reflexivity.
Defined.

(** ** The fetch wrapper *)

(** X22.  Every outcome of [fetchAPI] has one cause.  A returned document is the
    JSON body of a response with a status from 200 to 299.  An error that
    carries a status code was built by [handleErrorResponse] from a response
    outside that range whose body is a JSON document other than [null], and
    the code is that response's status.  Every other failure, a rejected
    fetch or a body that is not JSON, surfaces as the network error. *)
Theorem fetchAPI_outcomes f :
  match ClientApi.fetchAPI f with
  | inl data =>
      exists r, f = ClientApi.Resolved r /\ ClientApi.ok r = true
                /\ ClientApi.body r = Some data
  | inr e =>
      match ClientApi.statusCode_of e with
      | Some s =>
          exists r doc,
            f = ClientApi.Resolved r /\ ClientApi.ok r = false
            /\ ClientApi.body r = Some doc /\ doc <> ClientApi.JNull
            /\ ClientApi.status r = s /\ e = ClientApi.handleErrorResponse r
      | None =>
          ClientApi.message_of e = ClientApi.JStr ClientApi.network_error_message
      end
  end.
Proof.
  destruct f as [reason | r]; [reflexivity |].
  unfold ClientApi.fetchAPI, ClientApi.fetchAPI_try.
  destruct (ClientApi.ok r) eqn:Hok; cbn [negb].
  - destruct (ClientApi.body r) eqn:Hb; [eauto | reflexivity].
  - unfold ClientApi.handleErrorResponse.
    destruct (ClientApi.body r) as [doc |] eqn:Hb; [| reflexivity].
    destruct doc; try reflexivity;
      cbn [ClientApi.statusCode_of];
      (destruct (ClientApi.status r =? 0) eqn:Hz; [reflexivity |]);
      cbn [ClientApi.statusCode_of];
      eexists r, _; rewrite Hb; repeat split; try reflexivity; try assumption;
      discriminate.
Qed.

(** ** The error envelope, from [errorHandler] to the form *)

Lemma errorHandler_status_nonzero development err :
  Controller.status (Controller.errorHandler development err) <> 0.
Proof.
  unfold Controller.errorHandler. cbn [Controller.status].
  destruct (Err.statusCode err) as [z |]; [| discriminate].
  destruct (z =? 0) eqn:Hz; [discriminate | by apply Z.eqb_neq].
Qed.

(** The details of an error envelope as the client reads them. *)
Lemma fetchAPI_failure statusText r code message details :
  Controller.body r = Controller.Failure code message details ->
  Controller.status r < 200 \/ 299 < Controller.status r ->
  Controller.status r <> 0 ->
  is_empty message = false ->
  exists resp,
    Wire.received statusText r = Some resp
    /\ ClientApi.fetchAPI (ClientApi.Resolved resp)
       = inr (ClientApi.Error (ClientApi.JStr message) (Some (Controller.status r))
                (Some (ClientApi.JStr code))
                match details with
                | None => None
                | Some None => Some (ClientApi.JObj [])
                | Some (Some errors) =>
                    Some (ClientApi.JObj
                            [ ("errors", ClientApi.JArr (map Wire.verror_json errors)) ])
                end
                None).
Proof.
  intros Hb Hrange Hnz Hm. unfold Wire.received, Wire.document. rewrite Hb.
  cbn [option_map]. eexists. split; [reflexivity |].
  unfold ClientApi.fetchAPI, ClientApi.fetchAPI_try, ClientApi.ok.
  cbn [ClientApi.status].
  assert (Hok : (200 <=? Controller.status r) && (Controller.status r <=? 299) = false).
  { apply andb_false_iff. destruct Hrange; [left; apply Z.leb_gt | right; apply Z.leb_gt]; lia. }
  rewrite Hok. cbn [negb]. unfold ClientApi.handleErrorResponse.
  cbn [ClientApi.body ClientApi.status]. cbn. rewrite Hm. cbn [negb].
  apply Z.eqb_neq in Hnz. rewrite Hnz.
  by destruct details as [[errors |] |].
Qed.

(** X23.  Whatever a handler throws, when the status [errorHandler] answers with
    is outside 200 to 299 the client's [fetchAPI] throws an error that
    carries that status, the envelope's code and its message; the error has
    details exactly when the server runs in development. *)
Theorem error_envelope_reaches_client development statusText err :
  let r := Controller.errorHandler development err in
  Controller.status r < 200 \/ 299 < Controller.status r ->
  exists code message details resp e,
    Controller.body r = Controller.Failure code message details
    /\ Wire.received statusText r = Some resp
    /\ ClientApi.fetchAPI (ClientApi.Resolved resp) = inr e
    /\ ClientApi.statusCode_of e = Some (Controller.status r)
    /\ ClientApi.code_of e = Some (ClientApi.JStr code)
    /\ ClientApi.message_of e = ClientApi.JStr message
    /\ (ClientApi.details_of e = None <-> development = false).
Proof.
  intros r Hrange.
  pose proof (errorHandler_status_nonzero development err) as Hnz. fold r in Hnz.
  set (message := if is_empty (Err.message err) then "An unexpected error occurred"
                  else Err.message err).
  assert (Hm : is_empty message = false).
  { subst message. by destruct (is_empty (Err.message err)) eqn:He. }
  destruct (fetchAPI_failure statusText r _ message
              (if development then Some (Err.details err) else None) eq_refl Hrange Hnz Hm)
    as (resp & Hrecv & Hfetch).
  eexists _, message, _, resp, _. split; [reflexivity |].
  split; [exact Hrecv |]. split; [exact Hfetch |]. repeat split; cbn.
  - destruct development; [by destruct (Err.details err) | reflexivity].
  - intros ->. reflexivity.
Qed.

Lemma error_envelope_reaches_client_witness :
  exists code message details resp e,
    Controller.body (Controller.errorHandler false (Controller.not_found 7))
    = Controller.Failure code message details
    /\ Wire.received "Not Found" (Controller.errorHandler false (Controller.not_found 7))
       = Some resp
    /\ ClientApi.fetchAPI (ClientApi.Resolved resp) = inr e
    /\ ClientApi.statusCode_of e
       = Some (Controller.status (Controller.errorHandler false (Controller.not_found 7)))
    /\ ClientApi.code_of e = Some (ClientApi.JStr code)
    /\ ClientApi.message_of e = ClientApi.JStr message
    /\ (ClientApi.details_of e = None <-> false = false).
Proof.
  apply (error_envelope_reaches_client false "Not Found" (Controller.not_found 7)).
  right. vm_compute. reflexivity.
Defined.

Lemma join_nonempty sep l :
  l <> [] -> (forall m, m ∈ l -> is_empty m = false) ->
  is_empty (Validators.join sep l) = false.
Proof.
  destruct l as [| x rest]; [congruence |]. intros _ H.
  pose proof (H x (list_elem_of_here _ _)) as Hx.
  destruct x; [discriminate |]. by destruct rest.
Qed.

Lemma report_messages_nonempty now e m :
  m ∈ Validators.errors (Validators.validateExpense now e) -> is_empty (message m) = false.
Proof.
  rewrite ValidatorProps.validateExpense_errors.
  rewrite !elem_of_app.
  unfold date_errors, amount_errors, category_errors, description_errors.
  intros H.
  repeat match type of H with context [if ?b then _ else _] => destruct b end;
    repeat match type of H with
           | _ \/ _ => destruct H as [H | H]
           | _ ∈ [] => by apply elem_of_nil in H
           | _ ∈ [_] => apply list_elem_of_singleton in H; subst m
           end;
    reflexivity.
Qed.

Section Messages.

Variable number_to_string : number -> string.

Lemma messages_of_report errors :
  App.messages_of (map Wire.verror_json errors)
  = Some (map (fun e => Some (ClientApi.JStr (message e))) errors).
Proof.
  induction errors as [| e rest IH]; [reflexivity |].
  cbn [map App.messages_of Wire.verror_json]. rewrite IH. reflexivity.
Qed.

Lemma join_values_report sep errors :
  App.join_values number_to_string sep
    (map (fun e => Some (ClientApi.JStr (message e))) errors)
  = Validators.join sep (map message errors).
Proof.
  unfold App.join_values. rewrite map_map. reflexivity.
Qed.

(** X24.  When the server's validator rejects a submitted record, the message the
    form shows is the list of the validator's messages joined by commas if
    the server runs in development, and only the words [Validation failed]
    otherwise: outside development the envelope has no details to read. *)
Theorem validation_messages_shown_only_in_development
    development statusText now ts body d e :
  Validators.sanitizeExpense body = Ok e ->
  Validators.isValid (Validators.validateExpense now e) = false ->
  exists resp err,
    Wire.received statusText
      (Controller.serve development (Controller.createExpense now ts body) d).2 = Some resp
    /\ ClientApi.fetchAPI (ClientApi.Resolved resp) = inr err
    /\ ClientApi.statusCode_of err = Some 400
    /\ App.submit_error_message number_to_string err
       = inl (if development
              then Validators.join ", "
                     (map message (Validators.errors (Validators.validateExpense now e)))
              else "Validation failed").
Proof.
  intros Hs Hv.
  rewrite (PipelineProps.createExpense_invalid development now ts body d e Hs Hv).
  cbn [snd].
  set (errors := Validators.errors (Validators.validateExpense now e)).
  destruct (fetchAPI_failure statusText (validation_failure development errors)
              "VALIDATION_ERROR" "Validation failed"
              (if development then Some (Some errors) else None) eq_refl)
    as (resp & Hrecv & Hfetch); [cbn; lia | discriminate | reflexivity |].
  exists resp. eexists. split; [exact Hrecv |]. split; [exact Hfetch |].
  split; [reflexivity |].
  unfold App.submit_error_message. cbn [ClientApi.code_of ClientApi.details_of].
  cbn [String.eqb Ascii.eqb Bool.eqb].
  destruct development; [| reflexivity].
  cbn [ClientApi.optional_prop ClientApi.prop find fst snd String.eqb Ascii.eqb Bool.eqb
       fmap option_fmap option_map].
  rewrite messages_of_report, join_values_report.
  rewrite join_nonempty; [reflexivity | |].
  - intros Hnil. apply map_eq_nil in Hnil.
    pose proof (proj2 (ValidatorProps.validateExpense_isValid now e) Hnil). congruence.
  - intros m Hm. apply list_elem_of_fmap in Hm as (x & -> & Hx).
    by apply (report_messages_nonempty now e).
Qed.

End Messages.

Lemma validation_messages_shown_only_in_development_witness :
  exists resp err,
    Wire.received "Bad Request"
      (Controller.serve true
         (Controller.createExpense sample_now sample_ts far_future_body) empty_db).2
    = Some resp
    /\ ClientApi.fetchAPI (ClientApi.Resolved resp) = inr err
    /\ ClientApi.statusCode_of err = Some 400
    /\ App.submit_error_message (fun _ => EmptyString) err
       = inl "Date cannot be in the future".
Proof.
  apply (validation_messages_shown_only_in_development (fun _ => EmptyString) true
           "Bad Request" sample_now sample_ts far_future_body empty_db
           {| Validators.date := VStr "2099-01-01";
              Validators.amount := VNum (number_of_Z 10);
              Validators.category := VStr "Food";
              Validators.description := VNull |}).
  - vm_compute. reflexivity.
  - vm_compute. reflexivity.
Defined.

(** ** The form and the list in the browser *)

Lemma without_id_numeric id state :
  Forall (fun e => exists v x, e = Some v /\ ClientApi.prop "id" v = Some (ClientApi.JNum x))
         state ->
  App.without_id id state = Some state.
Proof.
  induction 1 as [| e rest (v & x & -> & Hid) _ IH]; [reflexivity |].
  cbn [App.without_id]. rewrite IH. unfold App.id_differs. rewrite Hid.
  by destruct v.
Qed.

(** X25.  The delete button hands [onDeleteExpense] the text of a [data-id]
    attribute, and the filter compares with [!==].  So when every listed
    expense has a number as its id, as the server sends them, the list is the
    same after the call as before, whatever the server answered: the deleted
    expense stays listed. *)
Theorem onDeleteExpense_keeps_numeric_ids base net id state :
  Forall (fun e => exists v x, e = Some v /\ ClientApi.prop "id" v = Some (ClientApi.JNum x))
         state ->
  (App.onDeleteExpense base net id state).2 = state.
Proof.
  intros H. unfold App.onDeleteExpense.
  destruct (ClientApi.deleteExpense base net id) as [calls [ok | e]]; [| reflexivity].
  by rewrite (without_id_numeric id state H).
Qed.

Lemma onDeleteExpense_keeps_numeric_ids_witness :
  (App.onDeleteExpense "/api"
     (fun _ => ClientApi.Resolved
                 {| ClientApi.status := 200; ClientApi.statusText := "OK";
                    ClientApi.body :=
                      Some (ClientApi.JObj [ ("success", ClientApi.JBool true) ]) |})
     "1" (map (fun r => Some (Wire.row_json r)) (Database.rows stale_db))).2
  = map (fun r => Some (Wire.row_json r)) (Database.rows stale_db).
Proof.
  apply (onDeleteExpense_keeps_numeric_ids "/api" _ "1").
  repeat constructor. eexists _, _. split; reflexivity.
Defined.

(** X26.  [onFormSubmit] sends nothing for a form that does not validate, and one
    POST of the form to [/expenses] for one that does; it leaves the list as
    it was or puts one entry in front, and leaves it as it was when nothing
    was sent. *)
Theorem onFormSubmit_sends_only_valid_forms base net tz now f state :
  let out := App.onFormSubmit base net tz now f state in
  out.1 = match ClientUtils.validateExpenseForm tz now f with
          | Some _ => []
          | None => [ {| ClientApi.url := base +:+ "/expenses";
                         ClientApi.method := "POST";
                         ClientApi.sent := Some (App.form_json f) |} ]
          end
  /\ (out.2 = state \/ exists e, out.2 = e :: state)
  /\ (out.1 = [] -> out.2 = state).
Proof.
  unfold App.onFormSubmit.
  destruct (ClientUtils.validateExpenseForm tz now f); [cbn; auto |].
  unfold ClientApi.addExpense, ClientApi.fetchAPI_call.
  destruct (ClientApi.fetchAPI _) as [doc | e]; [| cbn; auto].
  destruct (ClientApi.read "data" doc) as [x | e]; cbn; split; eauto.
  all: split; [eauto | discriminate].
Qed.

(** X27.  A form the client accepts, posted to the server's create route: the one
    request is the POST of the form, and afterwards the list starts with the
    stored row as JSON if the server's validator accepted the record, and is
    unchanged if it did not. *)
Theorem submitted_form_round_trip
    base net development statusText tz now server_now ts f d state resp e :
  ClientUtils.validateExpenseForm tz now f = None ->
  Validators.sanitizeExpense (App.form_body f) = Ok e ->
  Wire.received statusText
    (Controller.serve development
       (Controller.createExpense server_now ts (App.form_body f)) d).2 = Some resp ->
  net (ClientApi.fetchAPI_request (base +:+ "/expenses") "POST" (Some (App.form_json f)))
  = ClientApi.Resolved resp ->
  App.onFormSubmit base net tz now f state
  = ([ ClientApi.fetchAPI_request (base +:+ "/expenses") "POST" (Some (App.form_json f)) ],
     if Validators.isValid (Validators.validateExpense server_now e)
     then Some (Wire.row_json (Invariants.inserted_row ts e d)) :: state
     else state).
Proof.
  intros Hform Hs Hrecv Hnet.
  unfold App.onFormSubmit. rewrite Hform.
  unfold ClientApi.addExpense, ClientApi.fetchAPI_call. rewrite Hnet.
  destruct (Validators.isValid (Validators.validateExpense server_now e)) eqn:Hv.
  - rewrite (ServerProps.createExpense_valid development server_now ts _ d e Hs Hv) in Hrecv.
    cbn in Hrecv. injection Hrecv as <-. reflexivity.
  - rewrite (PipelineProps.createExpense_invalid development server_now ts _ d e Hs Hv)
      in Hrecv.
    cbn [snd] in Hrecv.
    destruct (fetchAPI_failure statusText
                (validation_failure development
                   (Validators.errors (Validators.validateExpense server_now e)))
                "VALIDATION_ERROR" "Validation failed"
                (if development
                 then Some (Some (Validators.errors (Validators.validateExpense server_now e)))
                 else None) eq_refl)
      as (resp' & Hrecv' & Hfetch); [cbn; lia | discriminate | reflexivity |].
    rewrite Hrecv in Hrecv'. injection Hrecv' as <-. rewrite Hfetch. reflexivity.
Qed.

Lemma submitted_form_round_trip_witness :
  exists resp,
    App.onFormSubmit "/api" (fun _ => ClientApi.Resolved resp) 0 sample_now today_form []
    = ([ ClientApi.fetchAPI_request ("/api" +:+ "/expenses") "POST"
           (Some (App.form_json today_form)) ],
       if Validators.isValid
            (Validators.validateExpense sample_now (sample_expense (number_of_Z 10)))
       then [ Some (Wire.row_json
                      (Invariants.inserted_row sample_ts (sample_expense (number_of_Z 10)) empty_db)) ]
       else []).
Proof.
  eexists.
  eapply (submitted_form_round_trip "/api" _ false "Created" 0 sample_now sample_now
           sample_ts today_form empty_db [] _ (sample_expense (number_of_Z 10))).
  - vm_compute. reflexivity.
  - vm_compute. reflexivity.
  - vm_compute. reflexivity.
  - reflexivity.
Defined.

(** ** The listing endpoints *)

(** X28.  [getCategories] and [getSummary] each make one GET request without a
    body, and what they return is never a falsy value: a missing or falsy
    [data] is replaced by an empty array or an empty object. *)
Theorem listing_endpoints_never_return_falsy base net :
  let categories := ClientApi.getCategories base net in
  let summary := ClientApi.getSummary base net in
  categories.1 = [ {| ClientApi.url := base +:+ "/expenses/categories";
                      ClientApi.method := "GET"; ClientApi.sent := None |} ]
  /\ summary.1 = [ {| ClientApi.url := base +:+ "/expenses/summary";
                      ClientApi.method := "GET"; ClientApi.sent := None |} ]
  /\ match categories.2 with
     | inl v => ClientApi.json_truthy (Some v) = true
     | inr _ => True
     end
  /\ match summary.2 with
     | inl v => ClientApi.json_truthy (Some v) = true
     | inr _ => True
     end.
Proof.
  unfold ClientApi.getCategories, ClientApi.getSummary, ClientApi.fetchAPI_call.
  repeat split.
  - destruct (ClientApi.fetchAPI _) as [doc | e]; [| reflexivity].
    by destruct (ClientApi.read "data" doc).
  - destruct (ClientApi.fetchAPI _) as [doc | e]; [| reflexivity].
    by destruct (ClientApi.read "data" doc).
  - destruct (ClientApi.fetchAPI _) as [doc | e]; [| exact I].
    destruct (ClientApi.read "data" doc) as [data | e]; [| exact I]. cbn [snd].
    destruct (ClientApi.json_truthy data) eqn:Ht; [| reflexivity].
    by destruct data.
  - destruct (ClientApi.fetchAPI _) as [doc | e]; [| exact I].
    destruct (ClientApi.read "data" doc) as [data | e]; [| exact I]. cbn [snd].
    destruct (ClientApi.json_truthy data) eqn:Ht; [| reflexivity].
    by destruct data.
Qed.

End ClientExtraProps.
